(** * ImageClassifier: the upload-and-render controller of static/js/app.js

    A shallow embedding of the [ImageClassifier] class: the single field
    [currentFile], the parts of the document the class reads and writes,
    the requests it sends with [fetch], and the suspended invocations of
    the async method [classifyImage].  Every method is a function on the
    controller state; a method that can raise returns a [completion].  The
    conversion of a value to text, which raises on some values, is part
    of the embedding; the parsing of the markup assigned to [innerHTML]
    is the browser's and is not. *)

From Stdlib Require Import List String Bool NArith ZArith QArith Lia.
Import ListNotations.
Local Open Scope string_scope.

Set Warnings "-register-all".

(** ** JavaScript values, as far as the controller looks at them *)

Module JS.

(** A value obtained from [response.json()] or built by the controller.
    A number is a finite double, embedded in the rationals; the controller
    never does arithmetic on a number it received.  [JObj] lists the own
    properties of an already parsed object; a key occurs once. *)
Inductive value : Type :=
| JUndefined
| JNull
| JBool (b : bool)
| JNum (q : Q)
| JStr (s : string)
| JArr (items : list value)
| JObj (props : list (string * value)).

(** ToBoolean. *)
Definition truthy (v : value) : bool :=
  match v with
  | JUndefined | JNull => false
  | JBool b => b
  | JNum q => negb (Qeq_bool q 0)
  | JStr s => negb (s =? EmptyString)
  | JArr _ | JObj _ => true
  end.

Fixpoint lookup (k : string) (props : list (string * value)) : value :=
  match props with
  | [] => JUndefined
  | (k', v) :: rest => if k =? k' then v else lookup k rest
  end.

(** [v.k] for the property names the controller reads ([success], [error],
    [predictions], [processing_time], [class], [probability]); none of them
    is defined on the prototype of a primitive or of an array.  [None] is
    the TypeError raised when [v] is [null] or [undefined]. *)
Definition prop (v : value) (k : string) : option value :=
  match v with
  | JUndefined | JNull => None
  | JObj props => Some (lookup k props)
  | JBool _ | JNum _ | JStr _ | JArr _ => Some JUndefined
  end.

(** [a || b]. *)
Definition or_else (a b : value) : value := if truthy a then a else b.

(** The number [n] of a loop index. *)
Definition of_nat (n : nat) : value := JNum (inject_Z (Z.of_nat n)).

(** The text of a value.  The digits that Number::toString gives for a
    number are floating point and are left unevaluated: [Digits q] stands
    for them. *)
Inductive piece : Type :=
| Chars (s : string)
| Digits (q : Q).

Definition text := list piece.

(** The object has an own property [k]. *)
Definition has_key (k : string) (props : list (string * value)) : bool :=
  existsb (fun kv => k =? fst kv) props.

(** ToString, as a template literal applies it to a substitution.  [None]
    is the TypeError it raises.  An array is joined with commas, [null]
    and [undefined] elements giving the empty text.  An object without an
    own [toString] gets the text of Object.prototype.toString; with an own
    [toString], which is never callable in a parsed value, neither
    [toString] nor [valueOf] gives a primitive and the conversion raises. *)
Fixpoint ToString (v : value) : option text :=
  match v with
  | JUndefined => Some [Chars "undefined"]
  | JNull => Some [Chars "null"]
  | JBool true => Some [Chars "true"]
  | JBool false => Some [Chars "false"]
  | JNum q => Some [Digits q]
  | JStr s => Some [Chars s]
  | JArr items =>
    (fix join (l : list value) : option text :=
       match l with
       | [] => Some []
       | x :: rest =>
         match (match x with
                | JUndefined | JNull => Some []
                | _ => ToString x
                end) with
         | None => None
         | Some a =>
           match join rest with
           | None => None
           | Some b =>
             Some (a ++ match rest with [] => [] | _ :: _ => [Chars ","] end ++ b)%list
           end
         end
       end) items
  | JObj props =>
    if has_key "toString" props then None else Some [Chars "[object Object]"]
  end.

(** The text of a value whose conversion does not raise. *)
Definition text_of (v : value) : text :=
  match ToString v with
  | Some t => t
  | None => []
  end.

Definition convertible (v : value) : bool :=
  match ToString v with
  | Some _ => true
  | None => false
  end.

(** An evaluated template literal: its literal chunks and the texts of
    its substitutions, in order. *)
Inductive chunk : Type :=
| Text (s : string)
| Interp (t : text).

Definition template := list chunk.

(** The texts of the substitutions of a template, left to right. *)
Fixpoint holes (t : template) : list text :=
  match t with
  | [] => []
  | Text _ :: rest => holes rest
  | Interp v :: rest => v :: holes rest
  end.

End JS.
Import JS.

(** ** Files, requests and responses *)

(** A [File] of the File API: [size] is an unsigned integer. *)
Record File : Type := mkFile {
  name : string;
  size : N;
  type : string
}.

(** A call of [fetch(url, {method, body: formData})]; [form] lists the
    fields appended to the FormData. *)
Record Request : Type := mkRequest {
  url : string;
  method : string;
  form : list (string * File)
}.

(** What [fetch] resolves to.  [body] is [None] when the body is not JSON,
    so that [response.json()] rejects. *)
Record Response : Type := mkResponse {
  status : Z;
  body : option value
}.

(** [response.ok]: the status is in the range 200-299. *)
Definition ok (r : Response) : bool :=
  ((200 <=? status r) && (status r <=? 299))%Z.

(** ** The document *)

(** The double quote of the markup written by the controller. *)
Definition dq : string := String (Ascii.ascii_of_nat 34) EmptyString.

(** The setter of [textContent]: [null] and [undefined] give the empty
    text, any other value is converted to text. *)
Definition textContent (v : value) : option text :=
  match v with
  | JUndefined | JNull => Some []
  | _ => ToString v
  end.

(** An element created by the controller with [document.createElement];
    [className] and [innerHTML] are the strings assigned to them. *)
Record Element : Type := mkElement {
  className : template;
  cssText : string;
  innerHTML : template
}.

(** The elements the controller reaches with [getElementById], and the
    toasts it appends to [document.body].  A [_hidden] field tells whether
    the class list of the element holds [d-none].  [file_size_bytes] is the
    argument of [formatFileSize] whose text is shown in [#file-size] (the
    formatting is floating point and is not embedded).  [preview_image_src]
    is the file whose data URL is the [src] of [#preview-image].
    [processing_time_text] is the text of [#processing-time].  [toasts]
    lists every toast appended to the body, oldest first; their removal by
    the five-second timer or by the user is not part of the model. *)
Record Document : Type := mkDocument {
  file_info_hidden : bool;
  file_name_text : string;
  file_size_bytes : N;
  classify_btn_hidden : bool;
  results_section_hidden : bool;
  results_display_hidden : bool;
  processing_hidden : bool;
  file_input_value : string;
  preview_image_src : option File;
  predictions_list : list Element;
  processing_time_text : text;
  toasts : list Element
}.

Definition set_file_info_hidden (b : bool) (d : Document) : Document :=
  mkDocument b (file_name_text d) (file_size_bytes d) (classify_btn_hidden d)
    (results_section_hidden d) (results_display_hidden d) (processing_hidden d)
    (file_input_value d) (preview_image_src d) (predictions_list d)
    (processing_time_text d) (toasts d).

Definition set_file_name_text (t : string) (d : Document) : Document :=
  mkDocument (file_info_hidden d) t (file_size_bytes d) (classify_btn_hidden d)
    (results_section_hidden d) (results_display_hidden d) (processing_hidden d)
    (file_input_value d) (preview_image_src d) (predictions_list d)
    (processing_time_text d) (toasts d).

Definition set_file_size_bytes (n : N) (d : Document) : Document :=
  mkDocument (file_info_hidden d) (file_name_text d) n (classify_btn_hidden d)
    (results_section_hidden d) (results_display_hidden d) (processing_hidden d)
    (file_input_value d) (preview_image_src d) (predictions_list d)
    (processing_time_text d) (toasts d).

Definition set_classify_btn_hidden (b : bool) (d : Document) : Document :=
  mkDocument (file_info_hidden d) (file_name_text d) (file_size_bytes d) b
    (results_section_hidden d) (results_display_hidden d) (processing_hidden d)
    (file_input_value d) (preview_image_src d) (predictions_list d)
    (processing_time_text d) (toasts d).

Definition set_results_section_hidden (b : bool) (d : Document) : Document :=
  mkDocument (file_info_hidden d) (file_name_text d) (file_size_bytes d)
    (classify_btn_hidden d) b (results_display_hidden d) (processing_hidden d)
    (file_input_value d) (preview_image_src d) (predictions_list d)
    (processing_time_text d) (toasts d).

Definition set_results_display_hidden (b : bool) (d : Document) : Document :=
  mkDocument (file_info_hidden d) (file_name_text d) (file_size_bytes d)
    (classify_btn_hidden d) (results_section_hidden d) b (processing_hidden d)
    (file_input_value d) (preview_image_src d) (predictions_list d)
    (processing_time_text d) (toasts d).

Definition set_processing_hidden (b : bool) (d : Document) : Document :=
  mkDocument (file_info_hidden d) (file_name_text d) (file_size_bytes d)
    (classify_btn_hidden d) (results_section_hidden d) (results_display_hidden d) b
    (file_input_value d) (preview_image_src d) (predictions_list d)
    (processing_time_text d) (toasts d).

Definition set_file_input_value (v : string) (d : Document) : Document :=
  mkDocument (file_info_hidden d) (file_name_text d) (file_size_bytes d)
    (classify_btn_hidden d) (results_section_hidden d) (results_display_hidden d)
    (processing_hidden d) v (preview_image_src d) (predictions_list d)
    (processing_time_text d) (toasts d).

Definition set_preview_image_src (f : option File) (d : Document) : Document :=
  mkDocument (file_info_hidden d) (file_name_text d) (file_size_bytes d)
    (classify_btn_hidden d) (results_section_hidden d) (results_display_hidden d)
    (processing_hidden d) (file_input_value d) f (predictions_list d)
    (processing_time_text d) (toasts d).

Definition set_predictions_list (l : list Element) (d : Document) : Document :=
  mkDocument (file_info_hidden d) (file_name_text d) (file_size_bytes d)
    (classify_btn_hidden d) (results_section_hidden d) (results_display_hidden d)
    (processing_hidden d) (file_input_value d) (preview_image_src d) l
    (processing_time_text d) (toasts d).

Definition set_processing_time_text (v : text) (d : Document) : Document :=
  mkDocument (file_info_hidden d) (file_name_text d) (file_size_bytes d)
    (classify_btn_hidden d) (results_section_hidden d) (results_display_hidden d)
    (processing_hidden d) (file_input_value d) (preview_image_src d)
    (predictions_list d) v (toasts d).

Definition set_toasts (l : list Element) (d : Document) : Document :=
  mkDocument (file_info_hidden d) (file_name_text d) (file_size_bytes d)
    (classify_btn_hidden d) (results_section_hidden d) (results_display_hidden d)
    (processing_hidden d) (file_input_value d) (preview_image_src d)
    (predictions_list d) (processing_time_text d) l.

(** ** The controller *)

Module ImageClassifier.

(** An operation the page is waiting for: an invocation of
    [classifyImage] suspended at [await fetch(...)] or at
    [await response.json()], or a [FileReader] reading the file of the
    preview. *)
Inductive Task : Type :=
| AwaitFetch
| AwaitJson (response : Response)
| ReaderLoading (f : File).

(** The controller and what it acts on.  [requests] lists the calls of
    [fetch], oldest first; [pending] lists the operations not yet
    settled. *)
Record State : Type := mkState {
  currentFile : option File;
  page : Document;
  requests : list Request;
  pending : list Task
}.

Definition set_currentFile (f : option File) (s : State) : State :=
  mkState f (page s) (requests s) (pending s).

Definition on_page (g : Document -> Document) (s : State) : State :=
  mkState (currentFile s) (g (page s)) (requests s) (pending s).

Definition fetch (r : Request) (s : State) : State :=
  mkState (currentFile s) (page s) (requests s ++ [r]) (pending s ++ [AwaitFetch]).

Definition spawn (t : Task) (s : State) : State :=
  mkState (currentFile s) (page s) (requests s) (pending s ++ [t]).

Definition set_pending (l : list Task) (s : State) : State :=
  mkState (currentFile s) (page s) (requests s) l.

(** The outcome of a method that can raise: the state it reached, and
    whether it returned or threw there. *)
Inductive completion : Type :=
| Normal (s : State)
| Throw (s : State).

Definition bind (c : completion) (k : State -> completion) : completion :=
  match c with
  | Normal s => k s
  | Throw s => Throw s
  end.

Notation "c >>= k" := (bind c k) (at level 50, left associativity).

(** [o >>=? k]: [k] on the value of [o], [None] when either raises. *)
Definition obind {A B : Type} (o : option A) (k : A -> option B) : option B :=
  match o with
  | Some a => k a
  | None => None
  end.

Notation "o >>=? k" := (obind o k) (at level 50, left associativity).

(** The state a method has reached when it returns or throws. *)
Definition state_of (c : completion) : State :=
  match c with
  | Normal s => s
  | Throw s => s
  end.

(** [constructor()], on a page whose document is [d]. *)
Definition constructor (d : Document) : State := mkState None d [] [].

Definition validTypes : list string :=
  ["image/png"; "image/jpeg"; "image/jpg"; "image/gif"; "image/bmp"; "image/tiff"].

(** [validTypes.includes(file.type)] *)
Definition isValidImageFile (file : File) : bool :=
  existsb (String.eqb (type file)) validTypes.

Definition displayFileInfo (file : File) (s : State) : State :=
  on_page (fun d =>
    set_file_info_hidden false
      (set_file_size_bytes (size file)
        (set_file_name_text (name file) d))) s.

Definition showClassifyButton (s : State) : State :=
  on_page (set_classify_btn_hidden false) s.

Definition hideResults (s : State) : State :=
  on_page (fun d =>
    set_results_display_hidden true (set_results_section_hidden true d)) s.

(** The element [toast] of [showError] once its [innerHTML] is assigned,
    [message] being the text of the argument. *)
Definition toast_of (message : text) : Element :=
  {| className := [Text "alert alert-danger alert-dismissible fade show position-fixed"];
     cssText := "top: 20px; right: 20px; z-index: 9999; min-width: 300px;";
     innerHTML :=
       [Text ("
            <i class=" ++ dq ++ "fas fa-exclamation-triangle me-2" ++ dq ++ "></i>
            ");
        Interp message;
        Text ("
            <button type=" ++ dq ++ "button" ++ dq ++ " class=" ++ dq ++ "btn-close"
              ++ dq ++ " data-bs-dismiss=" ++ dq ++ "alert" ++ dq ++ "></button>
        ")] |}.

(** The template literal converts [message] to text, which can raise;
    the toast is appended to the body only after that. *)
Definition showError (message : value) (s : State) : completion :=
  match ToString message with
  | None => Throw s
  | Some message =>
    Normal (on_page (fun d => set_toasts (toasts d ++ [toast_of message]) d) s)
  end.

(** An exception in [showError] would leave [handleFileSelect] and its
    listener, which do nothing more; the state is the one reached. *)
Definition handleFileSelect (file : option File) (s : State) : State :=
  match file with
  | None => s
  | Some file =>
    if negb (isValidImageFile file) then
      state_of (showError
        (JStr "Please select a valid image file (PNG, JPG, JPEG, GIF, BMP, TIFF)") s)
    else if (16 * 1024 * 1024 <? size file)%N then
      state_of (showError (JStr "File size must be less than 16MB") s)
    else
      hideResults (showClassifyButton (displayFileInfo file
        (set_currentFile (Some file) s)))
  end.

Definition clearFile (s : State) : State :=
  on_page (fun d =>
    set_file_input_value EmptyString
      (set_results_section_hidden true
        (set_classify_btn_hidden true
          (set_file_info_hidden true d))))
    (set_currentFile None s).

Definition showProcessing (s : State) : State :=
  on_page (fun d =>
    set_results_display_hidden true
      (set_results_section_hidden false
        (set_processing_hidden false d))) s.

Definition hideProcessing (s : State) : State :=
  on_page (set_processing_hidden true) s.

(** [reader.readAsDataURL(this.currentFile)] raises a TypeError when the
    argument is not a Blob. *)
Definition displayImagePreview (s : State) : completion :=
  match currentFile s with
  | None => Throw s
  | Some f => Normal (spawn (ReaderLoading f) s)
  end.

Definition confidenceBar (confidencePercentage : text) : template :=
  [Text ("
                <div class=" ++ dq ++ "confidence-bar" ++ dq ++ ">
                    <div class=" ++ dq ++ "confidence-fill" ++ dq ++ " style=" ++ dq ++ "width: ");
   Interp confidencePercentage;
   Text ("%" ++ dq ++ "></div>
                </div>
            ")].

(** The element built by one round of the [forEach] of
    [displayPredictions]; [None] when reading a property of [prediction]
    or converting [prediction.probability] or [prediction.class] to text
    raises.  [confidencePercentage] and [class] below are the texts the
    template literals obtain. *)
Definition predictionItem (prediction : value) (index : nat) : option Element :=
  match prop prediction "probability" >>=? ToString with
  | None => None
  | Some confidencePercentage =>
    match prop prediction "class" >>=? ToString with
    | None => None
    | Some class =>
      Some {| className := [Text "prediction-item top-";
                            Interp (text_of (of_nat (index + 1)))];
              cssText := EmptyString;
              innerHTML :=
                ([Text ("
                <div class=" ++ dq ++ "d-flex justify-content-between align-items-center" ++ dq ++ ">
                    <div>
                        <h6 class=" ++ dq ++ "mb-1" ++ dq ++ ">");
                 Interp class;
                 Text ("</h6>
                        <small class=" ++ dq ++ "text-muted" ++ dq ++ ">Confidence: ");
                 Interp confidencePercentage;
                 Text ("%</small>
                    </div>
                    <div class=" ++ dq ++ "text-end" ++ dq ++ ">
                        <span class=" ++ dq ++ "badge bg-primary" ++ dq ++ ">");
                 Interp (text_of (of_nat (index + 1)));
                 Text "</span>
                    </div>
                </div>
                "]
                ++ confidenceBar confidencePercentage
                ++ [Text "
            "])%list |}
    end
  end.

Definition appendChild (item : Element) (s : State) : State :=
  on_page (fun d => set_predictions_list (predictions_list d ++ [item]) d) s.

(** [predictions.forEach((prediction, index) => ...)], from [index] on. *)
Fixpoint forEach (predictions : list value) (index : nat) (s : State) : completion :=
  match predictions with
  | [] => Normal s
  | prediction :: rest =>
    match predictionItem prediction index with
    | None => Throw s
    | Some item => forEach rest (S index) (appendChild item s)
    end
  end.

(** The timer set at the end only assigns to every bar the width it
    already has. *)
Definition displayPredictions (predictions : value) (s : State) : completion :=
  let s := on_page (set_predictions_list []) s in
  match predictions with
  | JArr items => forEach items 0 s
  | _ => Throw s
  end.

Definition displayResults (result : value) (s : State) : completion :=
  let s := on_page (fun d =>
    set_results_display_hidden false (set_results_section_hidden false d)) s in
  displayImagePreview s >>= fun s =>
  match prop result "predictions" with
  | None => Throw s
  | Some predictions =>
    displayPredictions predictions s >>= fun s =>
    match prop result "processing_time" >>=? textContent with
    | None => Throw s
    | Some t => Normal (on_page (set_processing_time_text t) s)
    end
  end.

Definition classify_request (file : File) : Request :=
  {| url := "/classify"; method := "POST"; form := [("image", file)] |}.

(** [classifyImage()] up to its first [await]. *)
Definition classifyImage (s : State) : State :=
  match currentFile s with
  | None => s
  | Some file => fetch (classify_request file) (showProcessing s)
  end.

(** The [catch] and [finally] blocks of [classifyImage].  An exception
    in the [showError] of the [catch] block would leave [classifyImage]
    after the [finally] block; the state is the one reached. *)
Definition catch (c : completion) : State :=
  match c with
  | Normal s => s
  | Throw s =>
    state_of (showError
      (JStr "An error occurred during classification. Please try again.") s)
  end.

Definition finally (s : State) : State := hideProcessing s.

(** The [try] block after [await response.json()] gave [result]. *)
Definition on_result (result : value) (s : State) : completion :=
  match prop result "success" with
  | None => Throw s
  | Some success =>
    if truthy success then displayResults result s
    else
      match prop result "error" with
      | None => Throw s
      | Some error => showError (or_else error (JStr "Classification failed")) s
      end
  end.

End ImageClassifier.

(** ** The page: listeners, global handlers and settled operations *)

Module Page.
Import ImageClassifier.

(** What can happen to the page once the controller is constructed: the
    events the listeners of [initializeEventListeners] and the global
    handlers react to, and the settling of a pending operation, named by
    its position in [pending]. *)
Inductive Event : Type :=
| FileInputChange (value : string) (files : list File)
| Drop (files : list File)
| ClickClassify
| ClickClear
| KeyCtrlEnter
| KeyEscape
| FetchResolved (i : nat) (response : Response)
| FetchRejected (i : nat)
| JsonSettled (i : nat)
| ReaderLoaded (i : nat)
| ReaderFailed (i : nat).

Fixpoint remove_nth {A : Type} (i : nat) (l : list A) : list A :=
  match l, i with
  | [], _ => []
  | _ :: rest, O => rest
  | x :: rest, S j => x :: remove_nth j rest
  end.

Fixpoint update_nth {A : Type} (i : nat) (y : A) (l : list A) : list A :=
  match l, i with
  | [], _ => []
  | _ :: rest, O => y :: rest
  | x :: rest, S j => x :: update_nth j y rest
  end.

(** The operation at position [i] is over. *)
Definition settled (i : nat) (s : State) : State :=
  set_pending (remove_nth i (pending s)) s.

(** An invocation of [classifyImage] leaves its [try] block with [c]. *)
Definition leave (c : completion) : State := finally (catch c).

(** [fetch] resolved with [response]: the invocation at [i] goes on to
    the next [await], or throws on a status that is not [ok]. *)
Definition fetch_resolved (i : nat) (response : Response) (s : State) : State :=
  if negb (ok response) then leave (Throw (settled i s))
  else set_pending (update_nth i (AwaitJson response) (pending s)) s.

(** [fetch] rejected: a network error. *)
Definition fetch_rejected (i : nat) (s : State) : State :=
  leave (Throw (settled i s)).

(** [response.json()] settled: rejected when the body is not JSON. *)
Definition json_settled (i : nat) (response : Response) (s : State) : State :=
  match body response with
  | None => leave (Throw (settled i s))
  | Some result => leave (on_result result (settled i s))
  end.

(** [None] when the event cannot happen in [s]. *)
Definition step (e : Event) (s : State) : option State :=
  match e with
  | FileInputChange v files =>
    Some (handleFileSelect (hd_error files) (on_page (set_file_input_value v) s))
  | Drop files =>
    Some (if (0 <? List.length files)%nat then handleFileSelect (hd_error files) s else s)
  | ClickClassify => Some (classifyImage s)
  | ClickClear => Some (clearFile s)
  | KeyCtrlEnter =>
    Some (match currentFile s with Some _ => classifyImage s | None => s end)
  | KeyEscape => Some (clearFile s)
  | FetchResolved i response =>
    match nth_error (pending s) i with
    | Some AwaitFetch => Some (fetch_resolved i response s)
    | _ => None
    end
  | FetchRejected i =>
    match nth_error (pending s) i with
    | Some AwaitFetch => Some (fetch_rejected i s)
    | _ => None
    end
  | JsonSettled i =>
    match nth_error (pending s) i with
    | Some (AwaitJson response) => Some (json_settled i response s)
    | _ => None
    end
  | ReaderLoaded i =>
    match nth_error (pending s) i with
    | Some (ReaderLoading f) =>
      Some (on_page (set_preview_image_src (Some f)) (settled i s))
    | _ => None
    end
  | ReaderFailed i =>
    match nth_error (pending s) i with
    | Some (ReaderLoading _) => Some (settled i s)
    | _ => None
    end
  end.

(** The events of [es] one after the other; an event that cannot happen
    is skipped. *)
Fixpoint run (es : list Event) (s : State) : State :=
  match es with
  | [] => s
  | e :: rest =>
    run rest (match step e s with Some s' => s' | None => s end)
  end.

End Page.

(** ** Notions of the specification, read off the controller state *)

Module Spec.
Import ImageClassifier Page.

Definition is_classification (t : Task) : bool :=
  match t with
  | AwaitFetch | AwaitJson _ => true
  | ReaderLoading _ => false
  end.

(** Processing: an invocation of [classifyImage] has not yet left. *)
Definition in_flight (s : State) : bool :=
  existsb is_classification (pending s).

(** Idle: no file is staged, and the file card, the classify button and
    the results section (which holds the processing indicator and the
    results) are hidden. *)
Definition Idle (s : State) : Prop :=
  currentFile s = None /\
  file_info_hidden (page s) = true /\
  classify_btn_hidden (page s) = true /\
  results_section_hidden (page s) = true.

Definition MAX_SIZE : N := 16777216.

(** The outcome of validation, in the words of the specification. *)
Inductive Reason : Type := unsupported_type | too_large.

Inductive ValidationResult : Type :=
| Accepted
| Rejected (reason : Reason).

Definition accepted_types : list string :=
  ["image/png"; "image/jpeg"; "image/jpg"; "image/gif"; "image/bmp"; "image/tiff"].

(** Accepted iff the type is one of the accepted ones and the size is at
    most 16 MiB; the type is checked first. *)
Definition validate (f : File) : ValidationResult :=
  if negb (existsb (String.eqb (type f)) accepted_types) then Rejected unsupported_type
  else if (size f <=? MAX_SIZE)%N then Accepted
  else Rejected too_large.

(** The notification of a rejection. *)
Definition notice (r : Reason) : value :=
  match r with
  | unsupported_type =>
    JStr "Please select a valid image file (PNG, JPG, JPEG, GIF, BMP, TIFF)"
  | too_large => JStr "File size must be less than 16MB"
  end.

(** What [handleFileSelect] does with an accepted file. *)
Definition stage (f : File) (s : State) : State :=
  hideResults (showClassifyButton (displayFileInfo f (set_currentFile (Some f) s))).

(** The currently staged file, if any, passed validation. *)
Definition staged_valid (s : State) : Prop :=
  forall f, currentFile s = Some f ->
    In (type f) accepted_types /\ (size f <= MAX_SIZE)%N.

Definition photo : File :=
  {| name := "photo.jpg"; size := 2097152; type := "image/jpeg" |}.

Definition blank : Document :=
  {| file_info_hidden := true; file_name_text := EmptyString; file_size_bytes := 0;
     classify_btn_hidden := true; results_section_hidden := true;
     results_display_hidden := true; processing_hidden := true;
     file_input_value := EmptyString; preview_image_src := None;
     predictions_list := []; processing_time_text := []; toasts := [] |}.

(** [s'] has the staged file and the requests of [s]. *)
Definition keeps (s s' : State) : Prop :=
  currentFile s' = currentFile s /\ requests s' = requests s.

(** The event hands a file that passes validation to [handleFileSelect]. *)
Definition accepts (e : Event) : bool :=
  match e with
  | FileInputChange _ files | Drop files =>
    match hd_error files with
    | Some f => match validate f with Accepted => true | Rejected _ => false end
    | None => false
    end
  | _ => false
  end.

(** What the markup of a row of the predictions list holds: the texts
    substituted in the string assigned to [innerHTML] are, in this order,
    the label, the confidence, the rank and the width of the bar.  They
    are in the markup as they are, unescaped; how the browser displays the
    markup is not part of these notions. *)
Definition label_text (row : Element) : text :=
  nth 0 (holes (innerHTML row)) [].

Definition confidence_text (row : Element) : text :=
  nth 1 (holes (innerHTML row)) [].

Definition rank_text (row : Element) : text :=
  nth 2 (holes (innerHTML row)) [].

Definition width_text (row : Element) : text :=
  nth 3 (holes (innerHTML row)) [].

(** Both the [class] and the [probability] of the object can be converted
    to text. *)
Definition printable (props : list (string * value)) : bool :=
  convertible (lookup "class" props) && convertible (lookup "probability" props).

(** The round of [forEach] on [prediction] does not raise. *)
Definition renders (prediction : value) : bool :=
  match prop prediction "probability" >>=? ToString,
        prop prediction "class" >>=? ToString with
  | Some _, Some _ => true
  | _, _ => false
  end.

(** The text substituted for the message in the markup of a toast. *)
Definition message_text (toast : Element) : text :=
  nth 0 (holes (innerHTML toast)) [].

(** The state with the toast of the text [m] appended to the body. *)
Definition notified (m : text) (s : State) : State :=
  on_page (fun d => set_toasts (toasts d ++ [toast_of m]) d) s.

(** The text has no character. *)
Definition is_empty (t : text) : bool :=
  forallb (fun p => match p with Chars s => s =? EmptyString | Digits _ => false end) t.

Definition generic_error : value :=
  JStr "An error occurred during classification. Please try again.".

Definition fallback_error : value := JStr "Classification failed".

(** Sample data. *)
Definition huge : File :=
  {| name := "scan.tiff"; size := 16777217; type := "image/tiff" |}.

Definition exact : File :=
  {| name := "scan.tiff"; size := 16777216; type := "image/tiff" |}.

Definition notes : File :=
  {| name := "notes.pdf"; size := 20000000; type := "application/pdf" |}.

(** [photo] staged and submitted, the answer not yet there. *)
Definition busy : State :=
  run [Drop [photo]; ClickClassify] (constructor blank).



Definition server_error : Response := {| status := 500; body := None |}.


(** [photo] submitted and answered with [response], the body not yet read. *)
Definition answered (response : Response) : State :=
  run [Drop [photo]; ClickClassify; FetchResolved 0 response] (constructor blank).

Definition cat_dog : value :=
  JArr [JObj [("class", JStr "cat"); ("probability", JNum 90)];
        JObj [("class", JStr "dog"); ("probability", JNum 10)]].

End Spec.
Import ImageClassifier Page Spec.


(** ** The keyboard shortcuts of the document *)

Module Shortcuts.

Record KeyboardEvent : Type := mkKeyboardEvent {
  ctrlKey : bool;
  metaKey : bool;
  key : string
}.

(** The [keydown] listener of the document: Ctrl/Cmd + Enter classifies
    when a file is staged, Escape clears. *)
Definition keydown (e : KeyboardEvent) (s : State) : State :=
  let s :=
    if (ctrlKey e || metaKey e) && (key e =? "Enter") then
      match currentFile s with
      | Some _ => classifyImage s
      | None => s
      end
    else s in
  if key e =? "Escape" then clearFile s else s.

End Shortcuts.

(** ** The viewport test *)

Module Viewport.





End Viewport.

(** ** Notions for the accounting of requests and invocations *)

Module Accounting.

(** The number of invocations of [classifyImage] that have not left. *)
Definition inflight (s : State) : nat :=
  List.length (filter is_classification (pending s)).

(** The event is the settling of a pending operation. *)
Definition settling (e : Event) : bool :=
  match e with
  | FetchResolved _ _ | FetchRejected _ | JsonSettled _
  | ReaderLoaded _ | ReaderFailed _ => true
  | _ => false
  end.

(** The event makes an invocation of [classifyImage] leave. *)
Definition leaving (e : Event) : bool :=
  match e with
  | FetchResolved _ response => negb (ok response)
  | FetchRejected _ | JsonSettled _ => true
  | _ => false
  end.

(** The event with the files after the first left out. *)
Definition first_only (e : Event) : Event :=
  match e with
  | FileInputChange v files => FileInputChange v (firstn 1 files)
  | Drop files => Drop (firstn 1 files)
  | _ => e
  end.

(** The event starts an invocation of [classifyImage] that sends a
    request. *)
Definition submits (e : Event) (s : State) : bool :=
  match e with
  | ClickClassify | KeyCtrlEnter =>
    match currentFile s with Some _ => true | None => false end
  | _ => false
  end.

(** A POST to /classify whose only field is [image], holding a file that
    passes validation. *)
Definition well_formed (r : Request) : Prop :=
  url r = "/classify" /\ method r = "POST" /\
  exists f, form r = [("image", f)] /\ validate f = Accepted.

(** The results panel made visible, as [displayResults] does first. *)
Definition show_results (s : State) : State :=
  on_page (fun d =>
    set_results_display_hidden false (set_results_section_hidden false d)) s.

(** What the page shows of the staged file. *)
Definition card (s : State) : option File * bool * bool * string * N :=
  (currentFile s, file_info_hidden (page s), classify_btn_hidden (page s),
   file_name_text (page s), file_size_bytes (page s)).

(** The file card and the classify button go with the staged file: both
    visible, with the name and the size of the file, when one is staged;
    both hidden when none is. *)
Definition card_matches (s : State) : Prop :=
  match currentFile s with
  | Some f =>
    file_info_hidden (page s) = false /\ classify_btn_hidden (page s) = false /\
    file_name_text (page s) = name f /\ file_size_bytes (page s) = size f
  | None =>
    file_info_hidden (page s) = true /\ classify_btn_hidden (page s) = true
  end.

(** A message the controller puts in a toast: one of its own four
    texts, or the text of a truthy value received as [error]. *)
Definition controller_message (m : text) : Prop :=
  m = text_of (notice unsupported_type) \/
  m = text_of (notice too_large) \/
  m = text_of generic_error \/
  m = text_of fallback_error \/
  exists e, truthy e = true /\ ToString e = Some m.

(** Every element is the toast of such a message, and holds it. *)
Definition all_messages (l : list Element) : Prop :=
  Forall (fun t => exists m,
            t = toast_of m /\ message_text t = m /\ controller_message m) l.

Definition retriever : Response :=
  {| status := 200;
     body := Some (JObj [("success", JBool true);
                         ("predictions",
                          JArr [JObj [("class", JStr "golden retriever");
                                      ("probability", JNum 95)]]);
                         ("processing_time", JNum (15 # 100))]) |}.

Definition no_predictions : Response :=
  {| status := 200; body := Some (JObj [("success", JBool true)]) |}.




End Accounting.
Import Shortcuts Accounting.


(** ** What the methods leave alone *)

Create HintDb frame.

Lemma keeps_refl s : keeps s s.
Proof. split; reflexivity. Qed.

Lemma keeps_trans s1 s2 s3 : keeps s1 s2 -> keeps s2 s3 -> keeps s1 s3.
Proof. unfold keeps; intros [H1 H2] [H3 H4]; split; congruence. Qed.

Lemma keeps_on_page g s : keeps s (on_page g s).
Proof. split; reflexivity. Qed.

Lemma keeps_spawn t s : keeps s (spawn t s).
Proof. split; reflexivity. Qed.

Lemma keeps_set_pending l s : keeps s (set_pending l s).
Proof. split; reflexivity. Qed.



Lemma keeps_showError m s : keeps s (state_of (showError m s)).
Proof. unfold showError. destruct (ToString m); split; reflexivity. Qed.

Lemma keeps_hideProcessing s : keeps s (hideProcessing s).
Proof. apply keeps_on_page. Qed.

Lemma keeps_settled i s : keeps s (settled i s).
Proof. apply keeps_set_pending. Qed.

#[export] Hint Resolve keeps_refl keeps_on_page keeps_spawn keeps_set_pending
  keeps_showError keeps_hideProcessing keeps_settled : frame.

Lemma keeps_bind c k s :
  keeps s (state_of c) ->
  (forall s1, keeps s s1 -> keeps s (state_of (k s1))) ->
  keeps s (state_of (c >>= k)).
Proof.
  destruct c as [s1 | s1]; simpl; intros H Hk.
  - apply Hk, H.
  - exact H.
Qed.

Lemma keeps_forEach predictions : forall index s0 s,
  keeps s0 s -> keeps s0 (state_of (forEach predictions index s)).
Proof.
  induction predictions as [| p rest IH]; intros index s0 s H; simpl.
  - exact H.
  - destruct (predictionItem p index) as [item |]; simpl.
    + apply IH. eapply keeps_trans; [exact H | apply keeps_on_page].
    + exact H.
Qed.

Lemma keeps_displayPredictions predictions s0 s :
  keeps s0 s -> keeps s0 (state_of (displayPredictions predictions s)).
Proof.
  intros H. unfold displayPredictions.
  assert (H' : keeps s0 (on_page (set_predictions_list []) s))
    by (eapply keeps_trans; [exact H | apply keeps_on_page]).
  destruct predictions; simpl; try exact H'.
  apply keeps_forEach, H'.
Qed.

Lemma keeps_displayImagePreview s0 s :
  keeps s0 s -> keeps s0 (state_of (displayImagePreview s)).
Proof.
  intros H. unfold displayImagePreview.
  destruct (currentFile s); simpl; [| exact H].
  eapply keeps_trans; [exact H | apply keeps_spawn].
Qed.

Lemma keeps_displayResults result s0 s :
  keeps s0 s -> keeps s0 (state_of (displayResults result s)).
Proof.
  intros H. unfold displayResults.
  apply keeps_bind.
  - apply keeps_displayImagePreview.
    eapply keeps_trans; [exact H | apply keeps_on_page].
  - intros s1 H1. destruct (prop result "predictions") as [ps |]; simpl; [| exact H1].
    apply keeps_bind.
    + apply keeps_displayPredictions, H1.
    + intros s2 H2.
      destruct (prop result "processing_time" >>=? textContent); simpl; [| exact H2].
      eapply keeps_trans; [exact H2 | apply keeps_on_page].
Qed.

Lemma keeps_on_result result s0 s :
  keeps s0 s -> keeps s0 (state_of (on_result result s)).
Proof.
  intros H. unfold on_result.
  destruct (prop result "success") as [success |]; simpl; [| exact H].
  destruct (truthy success).
  - apply keeps_displayResults, H.
  - destruct (prop result "error"); simpl; [| exact H].
    eapply keeps_trans; [exact H | apply keeps_showError].
Qed.

Lemma keeps_leave c s0 :
  keeps s0 (state_of c) -> keeps s0 (leave c).
Proof.
  intros H. unfold leave, finally.
  eapply keeps_trans; [| apply keeps_hideProcessing].
  destruct c; simpl in *; [exact H |].
  eapply keeps_trans; [exact H | apply keeps_on_page].
Qed.

(** Settling a pending operation neither changes the staged file nor
    sends a request. *)
Lemma keeps_settling e s s' :
  step e s = Some s' ->
  match e with
  | FetchResolved _ _ | FetchRejected _ | JsonSettled _
  | ReaderLoaded _ | ReaderFailed _ => keeps s s'
  | _ => True
  end.
Proof.
  destruct e; simpl; trivial; intros H.
  - destruct (nth_error (pending s) i) as [[| |] |]; inversion H; subst; clear H.
    unfold fetch_resolved. destruct (negb (ok response)); auto with frame.
    apply keeps_leave; simpl; auto with frame.
  - destruct (nth_error (pending s) i) as [[| |] |]; inversion H; subst; clear H.
    apply keeps_leave; simpl; auto with frame.
  - destruct (nth_error (pending s) i) as [[| r |] |]; inversion H; subst; clear H.
    unfold json_settled. destruct (body r).
    + apply keeps_leave, keeps_on_result; auto with frame.
    + apply keeps_leave; simpl; auto with frame.
  - destruct (nth_error (pending s) i) as [[| | f] |]; inversion H; subst; clear H.
    eapply keeps_trans; [apply keeps_settled | apply keeps_on_page].
  - destruct (nth_error (pending s) i) as [[| | f] |]; inversion H; subst; clear H.
    auto with frame.
Qed.

(** ** Validation *)

Lemma validTypes_accepted : validTypes = accepted_types.
Proof. reflexivity. Qed.

Lemma isValidImageFile_In f : isValidImageFile f = true <-> In (type f) validTypes.
Proof.
  unfold isValidImageFile. rewrite existsb_exists. split.
  - intros [t [Hin Heq]]. apply String.eqb_eq in Heq. subst t. exact Hin.
  - intros Hin. exists (type f). split; [exact Hin | apply String.eqb_refl].
Qed.

Lemma isValidImageFile_not_In f : isValidImageFile f = false <-> ~ In (type f) validTypes.
Proof.
  rewrite <- isValidImageFile_In. destruct (isValidImageFile f); split; congruence.
Qed.

(** [handleFileSelect] is validation followed by staging or by the
    notification of the reason. *)
Lemma handleFileSelect_validate f s :
  handleFileSelect (Some f) s =
  match validate f with
  | Accepted => stage f s
  | Rejected r => notified (text_of (notice r)) s
  end.
Proof.
  unfold handleFileSelect, validate, isValidImageFile, validTypes, accepted_types, MAX_SIZE.
  destruct (negb (existsb (String.eqb (type f)) _)); [reflexivity |].
  change (16 * 1024 * 1024)%N with 16777216%N.
  rewrite N.ltb_antisym.
  destruct (size f <=? 16777216)%N; reflexivity.
Qed.

Lemma validate_Accepted f :
  validate f = Accepted <-> In (type f) validTypes /\ (size f <= MAX_SIZE)%N.
Proof.
  rewrite <- isValidImageFile_In. unfold validate, isValidImageFile, validTypes, accepted_types.
  destruct (existsb (String.eqb (type f)) _); simpl.
  - destruct (N.leb_spec (size f) MAX_SIZE); split; try tauto; try discriminate.
    intros [_ H']. lia.
  - split; [discriminate | intros [H _]; discriminate].
Qed.

Lemma showError_notice r s :
  showError (notice r) s = Normal (notified (text_of (notice r)) s).
Proof. destruct r; reflexivity. Qed.

Lemma Normal_inj s1 s2 : Normal s1 = Normal s2 -> s1 = s2.
Proof. intros H. exact (f_equal state_of H). Qed.

Lemma stage_not_notified f m s : stage f s <> notified m s.
Proof.
  intros H. apply (f_equal (fun x => List.length (toasts (page x)))) in H.
  simpl in H. rewrite length_app in H. simpl in H. lia.
Qed.

(** ** Single flight *)

Lemma classifyImage_no_file s : currentFile s = None -> classifyImage s = s.
Proof. unfold classifyImage. intros ->. reflexivity. Qed.

Lemma classifyImage_file s f :
  currentFile s = Some f ->
  classifyImage s = fetch (classify_request f) (showProcessing s).
Proof. unfold classifyImage. intros ->. reflexivity. Qed.

Lemma currentFile_classifyImage s : currentFile (classifyImage s) = currentFile s.
Proof. unfold classifyImage. destruct (currentFile s) eqn:E; simpl; congruence. Qed.

(** C1, as stated, fails: with [photo] staged and its classification in
    flight, a second [classifyImage] sends a second request to /classify
    and changes the controller state. *)
Lemma classifyImage_twice_two_requests :
  in_flight busy = true /\
  requests busy = [classify_request photo] /\
  requests (classifyImage busy) = [classify_request photo; classify_request photo] /\
  classifyImage busy <> busy.
Proof.
  repeat split; try reflexivity.
  intros H. apply (f_equal (fun s => List.length (requests s))) in H.
  vm_compute in H. discriminate.
Qed.

(** C1, amended: [classifyImage] has no guard on a request in flight; its
    only guard is on the staged file.  While a classification is in flight,
    a second [classifyImage] is a no-op that sends nothing exactly when no
    file is staged; with a file staged it sends one more POST to /classify
    carrying that file and suspends a second invocation. *)
Theorem classifyImage_in_flight s :
  in_flight s = true ->
  (currentFile s = None ->
     classifyImage s = s /\ requests (classifyImage s) = requests s) /\
  (forall f, currentFile s = Some f ->
     requests (classifyImage s) = (requests s ++ [classify_request f])%list /\
     pending (classifyImage s) = (pending s ++ [AwaitFetch])%list /\
     in_flight (classifyImage s) = true) /\
  (requests (classifyImage s) = requests s <-> currentFile s = None).
Proof.
  intros Hfl. split; [| split].
  - intros H. rewrite (classifyImage_no_file s H). split; reflexivity.
  - intros f H. rewrite (classifyImage_file s f H). simpl. repeat split.
    unfold in_flight. simpl. rewrite existsb_app. apply orb_true_r.
  - split.
    + destruct (currentFile s) as [f |] eqn:E; [| reflexivity].
      rewrite (classifyImage_file s f E). simpl. intros H.
      apply (f_equal (@List.length Request)) in H. rewrite length_app in H.
      simpl in H. lia.
    + intros H. rewrite (classifyImage_no_file s H). reflexivity.
Qed.

Lemma classifyImage_in_flight_witness :
  in_flight busy = true /\
  requests (classifyImage busy) = (requests busy ++ [classify_request photo])%list.
Proof.
  split; [reflexivity |].
  apply (classifyImage_in_flight busy); reflexivity.
Defined.

(** ** Validation and selection *)

(** C2: a file of an accepted type is staged iff its size is at most
    16777216 bytes, and is refused with the too-large notification iff its
    size is larger; 16777216 is accepted and 16777217 is refused. *)
Theorem handleFileSelect_size_boundary f s :
  In (type f) validTypes ->
  (handleFileSelect (Some f) s = stage f s <-> (size f <= 16777216)%N) /\
  (showError (notice too_large) s = Normal (handleFileSelect (Some f) s) <->
     (16777216 < size f)%N) /\
  (validate f = Accepted <-> (size f <= 16777216)%N) /\
  (validate f = Rejected too_large <-> (16777216 < size f)%N) /\
  (size f = 16777216%N ->
     handleFileSelect (Some f) s = stage f s /\
     currentFile (handleFileSelect (Some f) s) = Some f) /\
  (size f = 16777217%N ->
     showError (notice too_large) s = Normal (handleFileSelect (Some f) s) /\
     toasts (page (handleFileSelect (Some f) s)) =
       (toasts (page s) ++ [toast_of [Chars "File size must be less than 16MB"]])%list /\
     currentFile (handleFileSelect (Some f) s) = currentFile s).
Proof.
  intros Hty. apply isValidImageFile_In in Hty.
  assert (Hv : validate f = if (size f <=? 16777216)%N then Accepted else Rejected too_large).
  { unfold validate. unfold isValidImageFile, validTypes in Hty.
    unfold accepted_types. rewrite Hty. reflexivity. }
  rewrite handleFileSelect_validate, Hv.
  destruct (N.leb_spec (size f) 16777216) as [Hle | Hgt].
  - repeat split; try (intros; reflexivity); try (intros; exact Hle); try lia;
      try discriminate.
    intros H. exfalso. rewrite showError_notice in H. apply Normal_inj in H.
    exact (stage_not_notified f _ s (eq_sym H)).
  - repeat split; try (intros; reflexivity); try (intros; exact Hgt); try lia;
      try discriminate.
    intros H. exfalso. exact (stage_not_notified f _ s (eq_sym H)).
Qed.

Lemma handleFileSelect_size_boundary_witness :
  In (type exact) validTypes /\
  handleFileSelect (Some exact) busy = stage exact busy /\
  showError (notice too_large) busy = Normal (handleFileSelect (Some huge) busy).
Proof.
  split; [simpl; tauto |]. split.
  - apply (handleFileSelect_size_boundary exact busy); [simpl; tauto | reflexivity].
  - apply (handleFileSelect_size_boundary huge busy); [simpl; tauto | reflexivity].
Defined.

(** C3: a file whose type is not one of image/png, image/jpeg, image/jpg,
    image/gif, image/bmp, image/tiff is refused with the unsupported-type
    notification whatever its size, also when the size is over the limit:
    the type is checked first. *)
Theorem handleFileSelect_type_first f s :
  ~ In (type f)
      ["image/png"; "image/jpeg"; "image/jpg"; "image/gif"; "image/bmp"; "image/tiff"] ->
  isValidImageFile f = false /\
  validate f = Rejected unsupported_type /\
  showError (notice unsupported_type) s = Normal (handleFileSelect (Some f) s) /\
  showError (notice too_large) s <> Normal (handleFileSelect (Some f) s) /\
  toasts (page (handleFileSelect (Some f) s)) =
    (toasts (page s) ++
     [toast_of [Chars "Please select a valid image file (PNG, JPG, JPEG, GIF, BMP, TIFF)"]])%list /\
  currentFile (handleFileSelect (Some f) s) = currentFile s.
Proof.
  intros Hty. apply isValidImageFile_not_In in Hty.
  assert (Hv : validate f = Rejected unsupported_type).
  { unfold validate. unfold isValidImageFile, validTypes in Hty.
    unfold accepted_types. rewrite Hty. reflexivity. }
  rewrite handleFileSelect_validate, Hv. repeat split; try assumption.
  intros H. apply Normal_inj in H.
  apply (f_equal (fun x => map message_text (toasts (page x)))) in H.
  simpl in H. rewrite !map_app in H. apply app_inv_head in H. discriminate.
Qed.

Lemma handleFileSelect_type_first_witness :
  (16777216 < size notes)%N /\
  showError (notice unsupported_type) busy = Normal (handleFileSelect (Some notes) busy).
Proof.
  split; [reflexivity |].
  apply (handleFileSelect_type_first notes busy).
  simpl. intros H.
  repeat (destruct H as [H | H]; [discriminate H |]). exact H.
Defined.

(** C4: a candidate that validation rejects only adds the notification of
    the reason to the page and leaves the staged file as it was; when
    [handleFileSelect] changes the staged file, the candidate passed
    validation and is the new staged file. *)
Theorem handleFileSelect_rejected_frame s :
  (forall f r, validate f = Rejected r ->
     showError (notice r) s = Normal (handleFileSelect (Some f) s) /\
     currentFile (handleFileSelect (Some f) s) = currentFile s /\
     toasts (page (handleFileSelect (Some f) s)) =
       (toasts (page s) ++ [toast_of (text_of (notice r))])%list /\
     message_text (toast_of (text_of (notice r))) = text_of (notice r) /\
     is_empty (text_of (notice r)) = false /\
     requests (handleFileSelect (Some f) s) = requests s /\
     pending (handleFileSelect (Some f) s) = pending s) /\
  (forall file, currentFile (handleFileSelect file s) <> currentFile s ->
     exists f, file = Some f /\ validate f = Accepted /\
               currentFile (handleFileSelect file s) = Some f) /\
  (forall f, validate f = Accepted ->
     currentFile (handleFileSelect (Some f) s) = Some f).
Proof.
  split; [| split].
  - intros f r Hv. rewrite handleFileSelect_validate, Hv, showError_notice.
    destruct r; repeat split.
  - intros [f |] Hne; [| exfalso; apply Hne; reflexivity].
    exists f. rewrite handleFileSelect_validate in *.
    destruct (validate f) as [| r]; [repeat split |].
    exfalso. apply Hne. reflexivity.
  - intros f Hv. rewrite handleFileSelect_validate, Hv. reflexivity.
Qed.

Lemma handleFileSelect_rejected_frame_witness :
  validate huge = Rejected too_large /\
  currentFile (handleFileSelect (Some huge) busy) = Some photo.
Proof.
  split; [reflexivity |].
  destruct (handleFileSelect_rejected_frame busy) as [H _].
  destruct (H huge too_large eq_refl) as [_ [Hc _]].
  rewrite Hc. reflexivity.
Defined.

(** ** Clearing *)

Lemma hd_error_accepts_Drop files f :
  accepts (Drop files) = false -> hd_error files = Some f ->
  exists r, validate f = Rejected r.
Proof.
  simpl. intros H E. rewrite E in H.
  destruct (validate f) as [| r]; [discriminate | eauto].
Qed.

(** With no file staged, an event that is not an accepted selection
    leaves no file staged and sends nothing. *)
Lemma step_no_file e s s' :
  accepts e = false -> currentFile s = None -> step e s = Some s' ->
  currentFile s' = None /\ requests s' = requests s.
Proof.
  intros Hacc Hnone Hstep. destruct e.
  7-11: (apply keeps_settling in Hstep; destruct Hstep as [H1 H2];
         split; congruence).
  all: simpl in Hstep; inversion Hstep; subst; clear Hstep.
  - destruct (hd_error files) as [f |] eqn:E; [| split; [exact Hnone | reflexivity]].
    destruct (hd_error_accepts_Drop files f Hacc E) as [r Hr].
    rewrite handleFileSelect_validate, Hr. split; [exact Hnone | reflexivity].
  - destruct (0 <? List.length files)%nat; [| split; [exact Hnone | reflexivity]].
    destruct (hd_error files) as [f |] eqn:E; [| split; [exact Hnone | reflexivity]].
    destruct (hd_error_accepts_Drop files f Hacc E) as [r Hr].
    rewrite handleFileSelect_validate, Hr. split; [exact Hnone | reflexivity].
  - rewrite (classifyImage_no_file s Hnone). split; [exact Hnone | reflexivity].
  - split; reflexivity.
  - rewrite Hnone. split; [exact Hnone | reflexivity].
  - split; reflexivity.
Qed.

Lemma run_no_file es : forall s,
  existsb accepts es = false -> currentFile s = None ->
  currentFile (run es s) = None /\ requests (run es s) = requests s.
Proof.
  induction es as [| e rest IH]; intros s Hacc Hnone; simpl.
  - split; [exact Hnone | reflexivity].
  - simpl in Hacc. apply orb_false_iff in Hacc. destruct Hacc as [He Hrest].
    destruct (step e s) as [s' |] eqn:E.
    + destruct (step_no_file e s s' He Hnone E) as [H1 H2].
      destruct (IH s' Hrest H1) as [H3 H4]. split; congruence.
    + apply IH; assumption.
Qed.

(** C5: after [clearFile] no file is staged and the page is idle; from
    there, as long as no selection is accepted, whatever else happens
    (clicks, keys, rejected selections, answers to earlier requests) no
    file is staged, no request is sent, and [classifyImage] is a no-op;
    once a file is accepted, [classifyImage] sends its request. *)
Theorem clearFile_then_classifyImage s es :
  existsb accepts es = false ->
  currentFile (clearFile s) = None /\
  Idle (clearFile s) /\
  requests (clearFile s) = requests s /\
  classifyImage (clearFile s) = clearFile s /\
  (let s' := run es (clearFile s) in
   currentFile s' = None /\
   requests s' = requests s /\
   classifyImage s' = s' /\
   step ClickClassify s' = Some s' /\
   step KeyCtrlEnter s' = Some s' /\
   forall f, validate f = Accepted ->
     requests (classifyImage (handleFileSelect (Some f) s')) =
       (requests s ++ [classify_request f])%list).
Proof.
  intros Hacc.
  destruct (run_no_file es (clearFile s) Hacc eq_refl) as [H1 H2].
  repeat split; try assumption.
  - apply classifyImage_no_file, H1.
  - simpl. rewrite (classifyImage_no_file _ H1). reflexivity.
  - simpl. rewrite H1. reflexivity.
  - intros f Hv. rewrite handleFileSelect_validate, Hv.
    unfold classifyImage. simpl. rewrite H2. reflexivity.
Qed.

Lemma clearFile_then_classifyImage_witness :
  existsb accepts [ClickClassify; Drop [huge]; FetchRejected 0; KeyCtrlEnter] = false /\
  requests (run [ClickClassify; Drop [huge]; FetchRejected 0; KeyCtrlEnter]
              (clearFile busy)) = requests busy.
Proof.
  split; [reflexivity |].
  apply (clearFile_then_classifyImage busy
           [ClickClassify; Drop [huge]; FetchRejected 0; KeyCtrlEnter]).
  reflexivity.
Defined.

(** ** Leaving classifyImage *)

Lemma leave_hides c : processing_hidden (page (leave c)) = true.
Proof. reflexivity. Qed.

(** C6: however an invocation of [classifyImage] that sent its request
    ends (a status that is not 2xx, a network error, a body that is not
    JSON, a result with success, a result without, or an exception raised
    while the result is displayed), the step that ends it finishes with
    [hideProcessing], and the processing indicator is hidden after it. *)
Theorem classifyImage_cleanup i s :
  (nth_error (pending s) i = Some AwaitFetch ->
     (forall response, ok response = false ->
        exists s1, step (FetchResolved i response) s = Some (hideProcessing s1) /\
                   processing_hidden (page (hideProcessing s1)) = true) /\
     (exists s1, step (FetchRejected i) s = Some (hideProcessing s1) /\
                 processing_hidden (page (hideProcessing s1)) = true)) /\
  (forall response, nth_error (pending s) i = Some (AwaitJson response) ->
     exists s1, step (JsonSettled i) s = Some (hideProcessing s1) /\
                processing_hidden (page (hideProcessing s1)) = true /\
                (body response = None ->
                   showError generic_error (settled i s) = Normal s1) /\
                (forall result, body response = Some result ->
                   s1 = catch (on_result result (settled i s)))).
Proof.
  split.
  - intros Hp. split.
    + intros response Hok. simpl. rewrite Hp. unfold fetch_resolved. rewrite Hok.
      simpl. eexists. split; reflexivity.
    + simpl. rewrite Hp. eexists. split; reflexivity.
  - intros response Hp. simpl. rewrite Hp. unfold json_settled.
    destruct (body response) as [result |].
    + eexists. split; [reflexivity |]. split; [reflexivity |].
      split; [discriminate |]. intros r H. inversion H; subst. reflexivity.
    + eexists. split; [reflexivity |]. split; [reflexivity |].
      split; [reflexivity | discriminate].
Qed.

Lemma classifyImage_cleanup_witness :
  nth_error (pending busy) 0 = Some AwaitFetch /\
  exists s1, step (FetchRejected 0) busy = Some (hideProcessing s1) /\
             processing_hidden (page (hideProcessing s1)) = true.
Proof.
  split; [reflexivity |].
  apply (classifyImage_cleanup 0 busy). reflexivity.
Defined.

(** ** Failures *)

Lemma nth_error_update_nth {A : Type} (y : A) : forall l i x,
  nth_error l i = Some x -> nth_error (update_nth i y l) i = Some y.
Proof.
  induction l as [| a l IH]; intros [| i] x H; simpl in *; try discriminate.
  - reflexivity.
  - eapply IH, H.
Qed.

Lemma remove_nth_update_nth {A : Type} (y : A) : forall l i,
  remove_nth i (update_nth i y l) = remove_nth i l.
Proof.
  induction l as [| a l IH]; intros [| i]; simpl; try reflexivity.
  rewrite IH. reflexivity.
Qed.

(** A response with a 2xx status whose body is [result]: the invocation
    goes through both awaits and leaves with [on_result]. *)
Lemma run_fetch_json i response result s :
  nth_error (pending s) i = Some AwaitFetch ->
  ok response = true -> body response = Some result ->
  run [FetchResolved i response; JsonSettled i] s =
  leave (on_result result (settled i s)).
Proof.
  intros Hp Hok Hb. simpl. rewrite Hp. unfold fetch_resolved. rewrite Hok. simpl.
  rewrite (nth_error_update_nth _ _ _ _ Hp).
  unfold json_settled. rewrite Hb. unfold settled. simpl.
  rewrite remove_nth_update_nth. reflexivity.
Qed.

Lemma step_fetch_not_ok i response s :
  nth_error (pending s) i = Some AwaitFetch -> ok response = false ->
  step (FetchResolved i response) s =
  Some (hideProcessing (notified (text_of generic_error) (settled i s))).
Proof.
  intros Hp Hok. simpl. rewrite Hp. unfold fetch_resolved. rewrite Hok. reflexivity.
Qed.




(** C8: when the endpoint answers with a status that is not 2xx (500,
    say) while a file is staged, the controller adds the toast of the
    generic error, whose message is not empty, hides the processing
    indicator and leaves the staged file as it was; [classifyImage] then
    sends a new request carrying that same file. *)
Theorem classifyImage_error_keeps_file i response f s :
  currentFile s = Some f ->
  nth_error (pending s) i = Some AwaitFetch ->
  ok response = false ->
  exists s' m,
    step (FetchResolved i response) s = Some s' /\
    toasts (page s') = (toasts (page s) ++ [toast_of [Chars m]])%list /\
    message_text (toast_of [Chars m]) = [Chars m] /\
    m = "An error occurred during classification. Please try again." /\
    m <> EmptyString /\
    is_empty [Chars m] = false /\
    processing_hidden (page s') = true /\
    currentFile s' = Some f /\
    requests s' = requests s /\
    requests (classifyImage s') = (requests s ++ [classify_request f])%list /\
    in_flight (classifyImage s') = true.
Proof.
  intros Hf Hp Hok. eexists. eexists.
  split; [apply (step_fetch_not_ok i response s Hp Hok) |].
  split; [reflexivity |]. split; [reflexivity |]. split; [reflexivity |].
  split; [discriminate |]. split; [reflexivity |].
  split; [reflexivity |]. split; [exact Hf |]. split; [reflexivity |].
  unfold classifyImage. simpl. rewrite Hf. simpl. split; [reflexivity |].
  unfold in_flight. simpl. rewrite existsb_app. apply orb_true_r.
Qed.

Lemma classifyImage_error_keeps_file_witness :
  ok server_error = false /\
  exists s' m,
    step (FetchResolved 0 server_error) busy = Some s' /\
    toasts (page s') = (toasts (page busy) ++ [toast_of [Chars m]])%list /\
    message_text (toast_of [Chars m]) = [Chars m] /\
    m = "An error occurred during classification. Please try again." /\
    m <> EmptyString /\
    is_empty [Chars m] = false /\
    processing_hidden (page s') = true /\
    currentFile s' = Some photo /\
    requests s' = requests busy /\
    requests (classifyImage s') = (requests busy ++ [classify_request photo])%list /\
    in_flight (classifyImage s') = true.
Proof.
  split; [reflexivity |].
  apply (classifyImage_error_keeps_file 0 server_error photo busy); reflexivity.
Defined.

(** ** Rendering *)

Lemma on_page_same s :
  on_page (fun d => set_predictions_list (predictions_list d ++ []) d) s = s.
Proof.
  destruct s as [cf [a b c d e f g h i j k l] rq pd].
  unfold on_page, set_predictions_list. simpl. rewrite app_nil_r. reflexivity.
Qed.

(** The row of an object whose [class] and [probability] convert to the
    texts [c] and [q]. *)
Lemma predictionItem_object props index c q :
  ToString (lookup "class" props) = Some c ->
  ToString (lookup "probability" props) = Some q ->
  exists item,
    predictionItem (JObj props) index = Some item /\
    label_text item = c /\ confidence_text item = q /\ width_text item = q /\
    rank_text item = text_of (of_nat (index + 1)).
Proof.
  intros Hc Hq. unfold predictionItem. cbn [prop obind]. rewrite Hq, Hc.
  eexists. split; [reflexivity |]. repeat split.
Qed.

Lemma printable_texts props :
  printable props = true ->
  ToString (lookup "class" props) = Some (text_of (lookup "class" props)) /\
  ToString (lookup "probability" props) = Some (text_of (lookup "probability" props)).
Proof.
  unfold printable, convertible, text_of. intros H. apply andb_true_iff in H.
  destruct (ToString (lookup "class" props)), (ToString (lookup "probability" props));
    destruct H; try discriminate. split; reflexivity.
Qed.

Lemma predictionItem_None p index : renders p = false -> predictionItem p index = None.
Proof.
  unfold renders, predictionItem.
  destruct (prop p "probability" >>=? ToString); [| reflexivity].
  destruct (prop p "class" >>=? ToString); [discriminate | reflexivity].
Qed.

(** The rows [forEach] appends for an array of printable objects, from
    [index] on: one per object, in the order of the array, each holding
    the texts of the [class] and of the [probability] of its object. *)
Lemma forEach_objects objs : forall index,
  forallb printable objs = true ->
  exists rows,
    (forall s, forEach (map JObj objs) index s =
       Normal (on_page (fun d => set_predictions_list (predictions_list d ++ rows) d) s)) /\
    map label_text rows = map (fun props => text_of (lookup "class" props)) objs /\
    map confidence_text rows = map (fun props => text_of (lookup "probability" props)) objs /\
    map width_text rows = map (fun props => text_of (lookup "probability" props)) objs /\
    map rank_text rows =
      map (fun n => text_of (of_nat n)) (seq (index + 1) (List.length objs)).
Proof.
  induction objs as [| props rest IH]; intros index Hp.
  - exists []. simpl. repeat split. intros s. rewrite on_page_same. reflexivity.
  - simpl in Hp. apply andb_true_iff in Hp. destruct Hp as [Hp Hrest].
    destruct (printable_texts props Hp) as [Hc Hq].
    destruct (predictionItem_object props index _ _ Hc Hq)
      as [item [Hitem [Hl [Hcf [Hw Hr]]]]].
    destruct (IH (S index) Hrest) as [rows [Hrun [Hls [Hcs [Hws Hrs]]]]].
    exists (item :: rows). cbn [map forEach]. rewrite Hitem.
    split; [| split; [| split; [| split]]].
    + intros s. rewrite Hrun.
      unfold appendChild, on_page, set_predictions_list. simpl.
      rewrite <- app_assoc. reflexivity.
    + rewrite Hl, Hls. reflexivity.
    + rewrite Hcf, Hcs. reflexivity.
    + rewrite Hw, Hws. reflexivity.
    + cbn [List.length seq map]. rewrite Hr, Hrs.
      replace (S index + 1)%nat with (S (index + 1)) by lia. reflexivity.
Qed.

(** [displayPredictions] on an array of printable objects: the rows
    replace the content of the list and are those of [forEach] from
    index 0. *)
Lemma displayPredictions_objects objs :
  forallb printable objs = true ->
  exists rows,
    (forall s, displayPredictions (JArr (map JObj objs)) s =
       Normal (on_page (set_predictions_list rows) s)) /\
    map label_text rows = map (fun props => text_of (lookup "class" props)) objs /\
    map confidence_text rows = map (fun props => text_of (lookup "probability" props)) objs /\
    map width_text rows = map (fun props => text_of (lookup "probability" props)) objs /\
    map rank_text rows = map (fun n => text_of (of_nat n)) (seq 1 (List.length objs)).
Proof.
  intros Hp. unfold displayPredictions.
  destruct (forEach_objects objs 0 Hp) as [rows [Hrun H]].
  exists rows. split; [intros s; rewrite Hrun; reflexivity | exact H].
Qed.





(** The example of the specification: cat 90 before dog 10. *)
Example displayPredictions_cat_dog :
  match displayPredictions cat_dog busy with
  | Normal s' =>
    map label_text (predictions_list (page s')) = [[Chars "cat"]; [Chars "dog"]] /\
    map confidence_text (predictions_list (page s')) = [[Digits 90]; [Digits 10]]
  | Throw _ => False
  end.
Proof. split; reflexivity. Qed.

(** ** The staged file is a valid one *)

Lemma staged_valid_keeps s s' : keeps s s' -> staged_valid s -> staged_valid s'.
Proof. intros [H _] Hv f Hf. apply Hv. congruence. Qed.

Lemma staged_valid_handleFileSelect file s :
  staged_valid s -> staged_valid (handleFileSelect file s).
Proof.
  intros Hv. destruct file as [f |]; [| exact Hv].
  rewrite handleFileSelect_validate. destruct (validate f) as [| r] eqn:E.
  - intros g Hg. simpl in Hg. inversion Hg; subst g.
    apply validate_Accepted, E.
  - exact Hv.
Qed.

Lemma staged_valid_clearFile s : staged_valid (clearFile s).
Proof. intros f Hf. discriminate Hf. Qed.

Lemma staged_valid_classifyImage s : staged_valid s -> staged_valid (classifyImage s).
Proof.
  intros Hv. unfold classifyImage. destruct (currentFile s) as [f |] eqn:E; [| exact Hv].
  intros g Hg. simpl in Hg. apply Hv. exact Hg.
Qed.

Lemma staged_valid_step e s s' :
  staged_valid s -> step e s = Some s' -> staged_valid s'.
Proof.
  intros Hv Hstep. destruct e.
  7-11: (apply keeps_settling in Hstep; exact (staged_valid_keeps _ _ Hstep Hv)).
  all: simpl in Hstep; inversion Hstep; subst; clear Hstep.
  - apply staged_valid_handleFileSelect. exact Hv.
  - destruct (0 <? List.length files)%nat; [| exact Hv].
    apply staged_valid_handleFileSelect, Hv.
  - apply staged_valid_classifyImage, Hv.
  - apply staged_valid_clearFile.
  - destruct (currentFile s) eqn:E; [| exact Hv].
    apply staged_valid_classifyImage, Hv.
  - apply staged_valid_clearFile.
Qed.

Lemma staged_valid_run es : forall s, staged_valid s -> staged_valid (run es s).
Proof.
  induction es as [| e rest IH]; intros s Hv; simpl; [exact Hv |].
  apply IH. destruct (step e s) as [s' |] eqn:E; [| exact Hv].
  exact (staged_valid_step e s s' Hv E).
Qed.

(** C10: the staged file, when there is one, has an accepted type and a
    size of at most 16777216 bytes.  This holds of a new controller, is
    preserved by [handleFileSelect], [clearFile], [classifyImage] and by
    every event of the page, and so holds in every state the page can
    reach; [handleFileSelect] is the only one to stage a file, and stages
    only a file that passed both checks. *)
Theorem currentFile_always_valid s :
  staged_valid s ->
  (forall d, staged_valid (constructor d)) /\
  (forall file, staged_valid (handleFileSelect file s)) /\
  staged_valid (clearFile s) /\
  staged_valid (classifyImage s) /\
  (forall e s', step e s = Some s' -> staged_valid s') /\
  (forall es, staged_valid (run es s)) /\
  (forall d es f, currentFile (run es (constructor d)) = Some f ->
     isValidImageFile f = true /\ (size f <= 16777216)%N) /\
  (forall e s' f, step e s = Some s' -> currentFile s' = Some f ->
     currentFile s' <> currentFile s ->
     accepts e = true /\ validate f = Accepted) /\
  currentFile (clearFile s) = None /\
  currentFile (classifyImage s) = currentFile s.
Proof.
  intros Hv.
  split; [intros d f Hf; discriminate Hf |].
  split; [intros file; apply staged_valid_handleFileSelect, Hv |].
  split; [apply staged_valid_clearFile |].
  split; [apply staged_valid_classifyImage, Hv |].
  split; [intros e s' H; exact (staged_valid_step e s s' Hv H) |].
  split; [intros es; apply staged_valid_run, Hv |].
  split; [| split; [| split]].
  - intros d es f Hf.
    assert (H : staged_valid (run es (constructor d))).
    { apply staged_valid_run. intros g Hg. discriminate Hg. }
    destruct (H f Hf) as [H1 H2]. split; [apply isValidImageFile_In, H1 | exact H2].
  - intros e s' f Hstep Hf Hne. destruct e.
    7-11: (apply keeps_settling in Hstep; destruct Hstep as [H1 _]; congruence).
    all: simpl in Hstep; inversion Hstep; subst; clear Hstep.
    + simpl. destruct (hd_error files) as [g |]; [| exfalso; apply Hne; reflexivity].
      rewrite handleFileSelect_validate in *.
      destruct (validate g) as [| r] eqn:E; [| exfalso; apply Hne; reflexivity].
      simpl in Hf. inversion Hf; subst g. split; [reflexivity | exact E].
    + destruct (0 <? List.length files)%nat; [| exfalso; apply Hne; reflexivity].
      simpl. destruct (hd_error files) as [g |]; [| exfalso; apply Hne; reflexivity].
      rewrite handleFileSelect_validate in *.
      destruct (validate g) as [| r] eqn:E; [| exfalso; apply Hne; reflexivity].
      simpl in Hf. inversion Hf; subst g. split; [reflexivity | exact E].
    + exfalso. apply Hne, currentFile_classifyImage.
    + discriminate Hf.
    + exfalso. apply Hne.
      destruct (currentFile s) eqn:E; [rewrite currentFile_classifyImage |]; exact E.
    + discriminate Hf.
  - reflexivity.
  - apply currentFile_classifyImage.
Qed.

Lemma currentFile_always_valid_witness :
  staged_valid busy /\ staged_valid (run [Drop [huge]; KeyCtrlEnter; Drop [exact]] busy).
Proof.
  assert (H : staged_valid busy).
  { intros f Hf. inversion Hf; subst f. split; [simpl; tauto | discriminate]. }
  split; [exact H |].
  apply (currentFile_always_valid busy H).
Defined.

(** ** Selections *)

Lemma run_app es1 : forall es2 s, run (es1 ++ es2) s = run es2 (run es1 s).
Proof.
  induction es1 as [| e rest IH]; intros es2 s; simpl; [reflexivity | apply IH].
Qed.

Lemma step_first_only e s : step (first_only e) s = step e s.
Proof.
  destruct e as [v files | files | | | | | | | | |]; try reflexivity.
  - destruct files as [| f rest]; reflexivity.
  - destruct files as [| f rest]; reflexivity.
Qed.

(** X1: of the files of a drop or of a change of the file input only the
    first is looked at: leaving out the files after the first in every
    event of a run changes nothing of the state the run reaches.  A drop
    without files does nothing, and a change without files stages
    nothing. *)
Theorem only_first_file_used es : forall s,
  run (map first_only es) s = run es s /\
  step (Drop []) s = Some s /\
  (forall v, currentFile (run [FileInputChange v []; Drop []] s) = currentFile s).
Proof.
  induction es as [| e rest IH]; intros s.
  - repeat split.
  - destruct (IH s) as [_ [H2 H3]]. split; [| split; assumption].
    cbn [map run]. rewrite step_first_only.
    apply (IH (match step e s with Some s' => s' | None => s end)).
Qed.

Lemma stage_stage f g s : stage g (stage f s) = stage g s.
Proof. reflexivity. Qed.

(** X2: the last accepted selection wins: staging [g] after [f] gives the
    state that staging [g] alone gives, so nothing of [f] (name, size,
    staged file) is left. *)
Theorem handleFileSelect_last_wins f g s :
  validate f = Accepted -> validate g = Accepted ->
  handleFileSelect (Some g) (handleFileSelect (Some f) s) = handleFileSelect (Some g) s /\
  currentFile (handleFileSelect (Some g) (handleFileSelect (Some f) s)) = Some g /\
  file_name_text (page (handleFileSelect (Some g) (handleFileSelect (Some f) s))) = name g /\
  file_size_bytes (page (handleFileSelect (Some g) (handleFileSelect (Some f) s))) = size g.
Proof.
  intros Hf Hg. rewrite !handleFileSelect_validate, Hf, Hg.
  repeat split.
Qed.

Lemma handleFileSelect_last_wins_witness :
  validate photo = Accepted /\ validate exact = Accepted /\
  handleFileSelect (Some exact) (handleFileSelect (Some photo) busy) =
    handleFileSelect (Some exact) busy.
Proof.
  split; [reflexivity |]. split; [reflexivity |].
  apply (handleFileSelect_last_wins photo exact busy); reflexivity.
Defined.

(** ** Requests *)

Lemma requests_handleFileSelect file s : requests (handleFileSelect file s) = requests s.
Proof.
  destruct file as [f |]; [| reflexivity].
  rewrite handleFileSelect_validate. destruct (validate f); reflexivity.
Qed.

Lemma well_formed_classifyImage s :
  staged_valid s -> Forall well_formed (requests s) ->
  Forall well_formed (requests (classifyImage s)).
Proof.
  intros Hv Hr. unfold classifyImage. destruct (currentFile s) as [f |] eqn:E; [| exact Hr].
  simpl. apply Forall_app. split; [exact Hr |].
  constructor; [| constructor].
  repeat split. exists f. split; [reflexivity |].
  apply validate_Accepted, Hv, E.
Qed.

Lemma well_formed_step e s s' :
  staged_valid s -> Forall well_formed (requests s) -> step e s = Some s' ->
  Forall well_formed (requests s').
Proof.
  intros Hv Hr Hstep. destruct e.
  7-11: (apply keeps_settling in Hstep; destruct Hstep as [_ H]; rewrite H; exact Hr).
  all: simpl in Hstep; inversion Hstep; subst; clear Hstep.
  - rewrite requests_handleFileSelect. exact Hr.
  - destruct (0 <? List.length files)%nat; [| exact Hr].
    rewrite requests_handleFileSelect. exact Hr.
  - apply well_formed_classifyImage; assumption.
  - exact Hr.
  - destruct (currentFile s) eqn:E; [| exact Hr].
    apply well_formed_classifyImage; assumption.
  - exact Hr.
Qed.

(** X3: whatever happens on the page of a new controller, every request
    it has sent is a POST to /classify whose only field, [image], holds a
    file of an accepted type and of at most 16777216 bytes. *)
Theorem requests_always_well_formed d es :
  Forall well_formed (requests (run es (constructor d))) /\
  (forall r, In r (requests (run es (constructor d))) ->
     url r = "/classify" /\ method r = "POST" /\
     exists f, form r = [("image", f)] /\
       isValidImageFile f = true /\ (size f <= 16777216)%N).
Proof.
  assert (H : forall es s, staged_valid s -> Forall well_formed (requests s) ->
            Forall well_formed (requests (run es s))).
  { clear. induction es as [| e rest IH]; intros s Hv Hr; simpl; [exact Hr |].
    destruct (step e s) as [s' |] eqn:E; [| apply IH; assumption].
    apply IH.
    - exact (staged_valid_step e s s' Hv E).
    - exact (well_formed_step e s s' Hv Hr E). }
  assert (H0 : Forall well_formed (requests (run es (constructor d)))).
  { apply H; [intros f Hf; discriminate Hf | constructor]. }
  split; [exact H0 |].
  intros r Hin. rewrite Forall_forall in H0.
  destruct (H0 r Hin) as [Hu [Hm [f [Hform Hval]]]].
  split; [exact Hu |]. split; [exact Hm |]. exists f. split; [exact Hform |].
  apply validate_Accepted in Hval. destruct Hval as [H1 H2].
  split; [apply isValidImageFile_In, H1 | exact H2].
Qed.

Lemma requests_always_well_formed_witness :
  In (classify_request photo)
     (requests (run [Drop [huge]; Drop [photo]; ClickClassify] (constructor blank))) /\
  url (classify_request photo) = "/classify" /\
  method (classify_request photo) = "POST" /\
  exists f, form (classify_request photo) = [("image", f)] /\
    isValidImageFile f = true /\ (size f <= 16777216)%N.
Proof.
  assert (H : In (classify_request photo)
                (requests (run [Drop [huge]; Drop [photo]; ClickClassify]
                             (constructor blank)))) by (simpl; tauto).
  split; [exact H |].
  destruct (requests_always_well_formed blank [Drop [huge]; Drop [photo]; ClickClassify])
    as [_ G].
  exact (G (classify_request photo) H).
Defined.

(** X4: nothing is retried or re-staged behind the user's back: while
    only pending operations settle (answers, network errors, bodies read,
    previews loaded), no request is sent and the staged file stays. *)
Theorem settling_sends_nothing es : forall s,
  forallb settling es = true ->
  requests (run es s) = requests s /\ currentFile (run es s) = currentFile s.
Proof.
  induction es as [| e rest IH]; intros s Hes; simpl; [split; reflexivity |].
  simpl in Hes. apply andb_true_iff in Hes. destruct Hes as [He Hrest].
  destruct (step e s) as [s' |] eqn:E; [| apply IH, Hrest].
  destruct (IH s' Hrest) as [H1 H2].
  assert (K : keeps s s').
  { pose proof (keeps_settling e s s' E) as K. destruct e; try discriminate He; exact K. }
  destruct K as [K1 K2]. split; congruence.
Qed.

Lemma settling_sends_nothing_witness :
  forallb settling [FetchResolved 0 retriever; JsonSettled 0; ReaderLoaded 0] = true /\
  requests (run [FetchResolved 0 retriever; JsonSettled 0; ReaderLoaded 0] busy) =
    requests busy.
Proof.
  split; [reflexivity |].
  apply (settling_sends_nothing
           [FetchResolved 0 retriever; JsonSettled 0; ReaderLoaded 0] busy).
  reflexivity.
Defined.

(** ** The shape of the states the display methods reach *)

Lemma forEach_shape ps : forall i s,
  exists rows,
    state_of (forEach ps i s) =
    on_page (fun d => set_predictions_list (predictions_list d ++ rows) d) s.
Proof.
  induction ps as [| p rest IH]; intros i s; simpl.
  - exists []. symmetry. apply on_page_same.
  - destruct (predictionItem p i) as [item |].
    + destruct (IH (S i) (appendChild item s)) as [rows Hrows].
      exists (item :: rows). rewrite Hrows.
      unfold appendChild, on_page, set_predictions_list. simpl.
      rewrite <- app_assoc. reflexivity.
    + exists []. symmetry. apply on_page_same.
Qed.

Lemma displayPredictions_shape p s :
  exists rows,
    state_of (displayPredictions p s) = on_page (set_predictions_list rows) s.
Proof.
  unfold displayPredictions.
  destruct p; try (exists []; reflexivity).
  destruct (forEach_shape items 0 (on_page (set_predictions_list []) s)) as [rows H].
  exists rows. rewrite H. reflexivity.
Qed.

Ltac same_state E :=
  simpl; unfold on_page, spawn, show_results; simpl; unfold on_page;
  rewrite ?E; reflexivity.

(** What [displayResults] can have done when it returns or throws: the
    panel is visible, the list and the processing time are whatever they
    became, and at most the reader of the preview was started. *)
Lemma displayResults_shape result s :
  exists rows t l,
    state_of (displayResults result s) =
    mkState (currentFile s)
      (set_processing_time_text t (set_predictions_list rows (page (show_results s))))
      (requests s) (pending s ++ l) /\
    (l = [] \/ exists f, currentFile s = Some f /\ l = [ReaderLoading f]).
Proof.
  unfold displayResults, displayImagePreview. fold (show_results s).
  replace (currentFile (show_results s)) with (currentFile s) by reflexivity.
  destruct (currentFile s) as [f |] eqn:Ef.
  - cbn [bind].
    destruct (prop result "predictions") as [p |].
    + destruct (displayPredictions_shape p (spawn (ReaderLoading f) (show_results s)))
        as [rows Hrows].
      destruct (displayPredictions p (spawn (ReaderLoading f) (show_results s)))
        as [s2 | s2]; simpl in Hrows; subst s2; cbn [bind].
      * destruct (prop result "processing_time" >>=? textContent) as [t |].
        -- exists rows, t, [ReaderLoading f]. split; [| right; eauto].
           same_state Ef.
        -- exists rows, (processing_time_text (page s)), [ReaderLoading f].
           split; [| right; eauto]. same_state Ef.
      * exists rows, (processing_time_text (page s)), [ReaderLoading f].
        split; [| right; eauto]. same_state Ef.
    + exists (predictions_list (page s)), (processing_time_text (page s)), [ReaderLoading f].
      split; [| right; eauto]. same_state Ef.
  - exists (predictions_list (page s)), (processing_time_text (page s)), [].
    split; [| left; reflexivity]. rewrite app_nil_r. same_state Ef.
Qed.

Lemma controller_message_generic : controller_message (text_of generic_error).
Proof. right. right. left. reflexivity. Qed.

Lemma all_messages_generic : all_messages [toast_of (text_of generic_error)].
Proof.
  constructor; [| constructor]. eexists. split; [reflexivity |].
  split; [reflexivity | apply controller_message_generic].
Qed.

Lemma all_messages_or_else e m :
  ToString (or_else e fallback_error) = Some m -> all_messages [toast_of m].
Proof.
  unfold or_else. intros H. constructor; [| constructor].
  exists m. split; [reflexivity |]. split; [reflexivity |].
  destruct (truthy e) eqn:E.
  - right. right. right. right. exists e. split; assumption.
  - right. right. right. left. inversion H. reflexivity.
Qed.

(** What an invocation that leaves with [on_result] has done to the
    toasts, to the pending operations and to the indicator. *)
Lemma leave_on_result_facts result s :
  (exists m, toasts (page (leave (on_result result s))) = (toasts (page s) ++ m)%list /\
             (List.length m <= 1)%nat /\ all_messages m) /\
  (exists l, pending (leave (on_result result s)) = (pending s ++ l)%list /\
             filter is_classification l = []) /\
  processing_hidden (page (leave (on_result result s))) = true.
Proof.
  split; [| split; [| reflexivity]].
  - unfold on_result. destruct (prop result "success") as [success |].
    + destruct (truthy success).
      * destruct (displayResults_shape result s) as [rows [t [l [H _]]]].
        destruct (displayResults result s) as [s2 | s2]; simpl in H; subst s2.
        -- exists []. simpl. rewrite app_nil_r. repeat split; [lia | constructor].
        -- exists [toast_of (text_of generic_error)]. simpl.
           repeat split; [lia | apply all_messages_generic].
      * destruct (prop result "error") as [e |].
        -- unfold showError.
           destruct (ToString (or_else e (JStr "Classification failed"))) as [m |] eqn:E.
           ++ exists [toast_of m]. simpl.
              repeat split; [lia | exact (all_messages_or_else e m E)].
           ++ exists [toast_of (text_of generic_error)]. simpl.
              repeat split; [lia | apply all_messages_generic].
        -- exists [toast_of (text_of generic_error)]. simpl.
           repeat split; [lia | apply all_messages_generic].
    + exists [toast_of (text_of generic_error)]. simpl.
      repeat split; [lia | apply all_messages_generic].
  - unfold on_result. destruct (prop result "success") as [success |].
    + destruct (truthy success).
      * destruct (displayResults_shape result s) as [rows [t [l [H Hl]]]].
        exists l. split.
        -- destruct (displayResults result s) as [s2 | s2]; simpl in H; subst s2;
             reflexivity.
        -- destruct Hl as [-> | [f [_ ->]]]; reflexivity.
      * destruct (prop result "error") as [e |].
        -- unfold showError.
           destruct (ToString (or_else e (JStr "Classification failed")));
             exists []; simpl; rewrite app_nil_r; split; reflexivity.
        -- exists []. simpl. rewrite app_nil_r. split; reflexivity.
    + exists []. simpl. rewrite app_nil_r. split; reflexivity.
Qed.

(** ** Toasts *)







(** ** Invocations in flight *)

Section Counting.
Context {A : Type} (P : A -> bool).

Lemma filter_remove_nth_true : forall (l : list A) i x,
  nth_error l i = Some x -> P x = true ->
  S (List.length (filter P (remove_nth i l))) = List.length (filter P l).
Proof.
  induction l as [| a l IH]; intros [| i] x H Hx; simpl in *; try discriminate.
  - inversion H; subst a. rewrite Hx. reflexivity.
  - destruct (P a); simpl; rewrite (IH i x H Hx); reflexivity.
Qed.

Lemma filter_remove_nth_false : forall (l : list A) i x,
  nth_error l i = Some x -> P x = false ->
  filter P (remove_nth i l) = filter P l.
Proof.
  induction l as [| a l IH]; intros [| i] x H Hx; simpl in *; try discriminate.
  - inversion H; subst a. rewrite Hx. reflexivity.
  - rewrite (IH i x H Hx). reflexivity.
Qed.

Lemma filter_update_nth : forall (l : list A) i x y,
  nth_error l i = Some x -> P x = true -> P y = true ->
  List.length (filter P (update_nth i y l)) = List.length (filter P l).
Proof.
  induction l as [| a l IH]; intros [| i] x y H Hx Hy; simpl in *; try discriminate.
  - inversion H; subst a. rewrite Hx, Hy. reflexivity.
  - destruct (P a); simpl; rewrite (IH i x y H Hx Hy); reflexivity.
Qed.

Lemma existsb_filter : forall (l : list A),
  existsb P l = true <-> (1 <= List.length (filter P l))%nat.
Proof.
  induction l as [| a l IH]; simpl.
  - split; [discriminate | lia].
  - destruct (P a); simpl; [split; [lia | reflexivity] | exact IH].
Qed.
End Counting.

Lemma inflight_leave_Throw i s :
  nth_error (pending s) i = Some AwaitFetch ->
  S (inflight (leave (Throw (settled i s)))) = inflight s.
Proof.
  intros H. unfold inflight. simpl.
  apply (filter_remove_nth_true is_classification _ _ _ H). reflexivity.
Qed.

Lemma inflight_leave_on_result i r result s :
  nth_error (pending s) i = Some (AwaitJson r) ->
  S (inflight (leave (on_result result (settled i s)))) = inflight s.
Proof.
  intros H. unfold inflight.
  destruct (leave_on_result_facts result (settled i s)) as [_ [[l [Hl Hnil]] _]].
  rewrite Hl, filter_app, Hnil, app_nil_r. simpl.
  apply (filter_remove_nth_true is_classification _ _ _ H). reflexivity.
Qed.

Lemma inflight_classifyImage s :
  inflight (classifyImage s) =
  (inflight s + match currentFile s with Some _ => 1 | None => 0 end)%nat.
Proof.
  unfold classifyImage, inflight. destruct (currentFile s); simpl; [| lia].
  rewrite filter_app, length_app. reflexivity.
Qed.

Lemma inflight_handleFileSelect file s : inflight (handleFileSelect file s) = inflight s.
Proof.
  destruct file as [f |]; [| reflexivity].
  rewrite handleFileSelect_validate. destruct (validate f); reflexivity.
Qed.

(** The balance of one event: invocations in flight and requests sent. *)
Lemma balance_step e s s' :
  step e s = Some s' ->
  (inflight s' + Nat.b2n (leaving e) = inflight s + Nat.b2n (submits e s))%nat /\
  List.length (requests s') = (List.length (requests s) + Nat.b2n (submits e s))%nat.
Proof.
  intros Hstep. split.
  - destruct e; simpl in Hstep.
    + inversion Hstep; subst; clear Hstep. rewrite inflight_handleFileSelect.
      unfold inflight. simpl. lia.
    + inversion Hstep; subst; clear Hstep.
      destruct (0 <? List.length files)%nat;
        [rewrite inflight_handleFileSelect |]; simpl; lia.
    + inversion Hstep; subst; clear Hstep. rewrite inflight_classifyImage. simpl.
      destruct (currentFile s); simpl; lia.
    + inversion Hstep; subst; clear Hstep. simpl. unfold inflight. simpl. lia.
    + inversion Hstep; subst; clear Hstep. simpl.
      destruct (currentFile s) eqn:E; [| simpl; lia].
      rewrite inflight_classifyImage, E. simpl. lia.
    + inversion Hstep; subst; clear Hstep. simpl. unfold inflight. simpl. lia.
    + destruct (nth_error (pending s) i) as [[| |] |] eqn:E;
        inversion Hstep; subst; clear Hstep.
      unfold fetch_resolved. simpl. destruct (negb (ok response)); simpl.
      * pose proof (inflight_leave_Throw i s E). lia.
      * unfold inflight. simpl.
        rewrite (filter_update_nth is_classification _ _ _ (AwaitJson response) E);
          [lia | reflexivity | reflexivity].
    + destruct (nth_error (pending s) i) as [[| |] |] eqn:E;
        inversion Hstep; subst; clear Hstep.
      simpl. pose proof (inflight_leave_Throw i s E). unfold fetch_rejected. lia.
    + destruct (nth_error (pending s) i) as [[| r |] |] eqn:E;
        inversion Hstep; subst; clear Hstep.
      simpl. unfold json_settled. destruct (body r) as [result |].
      * pose proof (inflight_leave_on_result i r result s E). lia.
      * assert (H : S (inflight (leave (Throw (settled i s)))) = inflight s).
        { unfold inflight. simpl.
          apply (filter_remove_nth_true is_classification _ _ _ E). reflexivity. }
        lia.
    + destruct (nth_error (pending s) i) as [[| | f] |] eqn:E;
        inversion Hstep; subst; clear Hstep.
      simpl. unfold inflight. simpl.
      rewrite (filter_remove_nth_false is_classification _ _ _ E); [lia | reflexivity].
    + destruct (nth_error (pending s) i) as [[| | f] |] eqn:E;
        inversion Hstep; subst; clear Hstep.
      simpl. unfold inflight. simpl.
      rewrite (filter_remove_nth_false is_classification _ _ _ E); [lia | reflexivity].
  - destruct e.
    7-11: (apply keeps_settling in Hstep; destruct Hstep as [_ H]; rewrite H; simpl; lia).
    all: simpl in Hstep; inversion Hstep; subst; clear Hstep; simpl.
    + rewrite requests_handleFileSelect. simpl. lia.
    + destruct (0 <? List.length files)%nat; [rewrite requests_handleFileSelect |]; lia.
    + unfold classifyImage. destruct (currentFile s); simpl; [rewrite length_app |];
        simpl; lia.
    + lia.
    + unfold classifyImage. destruct (currentFile s); simpl; [rewrite length_app |];
        simpl; lia.
    + lia.
Qed.

(** X6: the balance of the page.  An event changes the number of
    invocations in flight by one up when it submits (a click on classify or
    Ctrl+Enter with a file staged), by one down when it makes an invocation
    leave (network error, status that is not 2xx, body read or unreadable),
    and not otherwise; the requests sent grow by one exactly when it
    submits.  So a new controller never has more invocations in flight than
    requests sent. *)
Theorem invocation_balance :
  (forall e s s', step e s = Some s' ->
     (inflight s' + Nat.b2n (leaving e) = inflight s + Nat.b2n (submits e s))%nat /\
     List.length (requests s') =
       (List.length (requests s) + Nat.b2n (submits e s))%nat) /\
  (forall d es,
     (inflight (run es (constructor d)) <=
        List.length (requests (run es (constructor d))))%nat).
Proof.
  split; [exact balance_step |].
  assert (H : forall es s, (inflight s <= List.length (requests s))%nat ->
            (inflight (run es s) <= List.length (requests (run es s)))%nat).
  { induction es as [| e rest IH]; intros s Hs; simpl; [exact Hs |].
    destruct (step e s) as [s' |] eqn:E; [| apply IH, Hs].
    apply IH. destruct (balance_step e s s' E) as [H1 H2]. lia. }
  intros d es. apply H. unfold inflight. simpl. lia.
Qed.

Lemma invocation_balance_witness :
  step (FetchResolved 0 server_error) busy <> None /\
  (inflight (run [FetchResolved 0 server_error] busy) + 1 = inflight busy + 0)%nat.
Proof.
  split; [discriminate |].
  destruct invocation_balance as [H _].
  apply (H (FetchResolved 0 server_error) busy
           (run [FetchResolved 0 server_error] busy)).
  reflexivity.
Defined.

Lemma leaving_hides e s s' :
  step e s = Some s' -> leaving e = true -> processing_hidden (page s') = true.
Proof.
  intros Hstep Hl. destruct e; try discriminate Hl; simpl in Hstep, Hl.
  - destruct (nth_error (pending s) i) as [[| |] |]; inversion Hstep; subst; clear Hstep.
    unfold fetch_resolved. rewrite Hl. reflexivity.
  - destruct (nth_error (pending s) i) as [[| |] |]; inversion Hstep; subst; clear Hstep.
    reflexivity.
  - destruct (nth_error (pending s) i) as [[| r |] |]; inversion Hstep; subst; clear Hstep.
    unfold json_settled. destruct (body r); reflexivity.
Qed.

(** X7: the processing indicator does not tell whether a request is in
    flight: when two invocations are in flight and one of them leaves, the
    indicator is hidden although the other is still waiting for its
    answer. *)
Theorem indicator_hidden_while_in_flight e s s' :
  step e s = Some s' -> leaving e = true -> (2 <= inflight s)%nat ->
  in_flight s' = true /\ processing_hidden (page s') = true.
Proof.
  intros Hstep Hl H2. split; [| exact (leaving_hides e s s' Hstep Hl)].
  destruct (balance_step e s s' Hstep) as [Hb _]. rewrite Hl in Hb. simpl in Hb.
  unfold in_flight. apply existsb_filter. fold (inflight s'). lia.
Qed.

Lemma indicator_hidden_while_in_flight_witness :
  inflight (classifyImage busy) = 2%nat /\
  in_flight (run [FetchRejected 0] (classifyImage busy)) = true /\
  processing_hidden (page (run [FetchRejected 0] (classifyImage busy))) = true.
Proof.
  split; [reflexivity |].
  apply (indicator_hidden_while_in_flight (FetchRejected 0) (classifyImage busy));
    [reflexivity | reflexivity | vm_compute; lia].
Defined.

(** ** More on rendering *)

(** X8: what [displayPredictions] renders does not depend on what was
    rendered before: rendering [p] after any other rendering gives what
    rendering [p] alone gives, so rows never pile up over classifications. *)
Theorem displayPredictions_overwrites p p' s :
  displayPredictions p (state_of (displayPredictions p' s)) = displayPredictions p s /\
  (forall rows, displayPredictions p (on_page (set_predictions_list rows) s) =
                displayPredictions p s).
Proof.
  assert (H : forall rows, displayPredictions p (on_page (set_predictions_list rows) s) =
                           displayPredictions p s) by (intros rows; reflexivity).
  split; [| exact H].
  destruct (displayPredictions_shape p' s) as [rows Hrows]. rewrite Hrows. apply H.
Qed.

Lemma forEach_app ps : forall qs i s,
  forEach (ps ++ qs) i s = forEach ps i s >>= forEach qs (i + List.length ps).
Proof.
  induction ps as [| p rest IH]; intros qs i s; simpl.
  - rewrite Nat.add_0_r. reflexivity.
  - destruct (predictionItem p i) as [item |]; [| reflexivity].
    rewrite IH. replace (S i + List.length rest)%nat with (i + S (List.length rest))%nat by lia.
    reflexivity.
Qed.

(** X9: the rendering stops with an exception at the first prediction
    that cannot be rendered, a [null] or an object whose [class] or
    [probability] cannot be converted to text: the rows of the printable
    objects before it are in the list, in order and with their texts, and
    nothing of what follows is rendered. *)
Theorem displayPredictions_stops_at_first_failure objs bad rest s :
  forallb printable objs = true -> renders bad = false ->
  exists rows,
    displayPredictions (JArr (map JObj objs ++ bad :: rest)) s =
      Throw (on_page (set_predictions_list rows) s) /\
    List.length rows = List.length objs /\
    map label_text rows = map (fun props => text_of (lookup "class" props)) objs /\
    map confidence_text rows =
      map (fun props => text_of (lookup "probability" props)) objs.
Proof.
  intros Hp Hbad. unfold displayPredictions. rewrite forEach_app.
  destruct (forEach_objects objs 0 Hp) as [rows [Hrun [Hl [Hc _]]]].
  exists rows. rewrite Hrun. cbn [bind forEach].
  rewrite (predictionItem_None bad _ Hbad).
  split; [reflexivity |]. split; [| split; assumption].
  rewrite <- (length_map label_text rows), Hl. apply length_map.
Qed.

Lemma displayPredictions_stops_at_first_failure_witness :
  renders JNull = false /\
  renders (JObj [("class", JObj [("toString", JNum 0)]); ("probability", JNum 90)]) = false /\
  exists rows,
    displayPredictions
      (JArr (map JObj [[("class", JStr "cat"); ("probability", JNum 90)]] ++
             JNull :: [JObj [("class", JStr "dog"); ("probability", JNum 10)]])) busy =
      Throw (on_page (set_predictions_list rows) busy) /\
    map label_text rows = [[Chars "cat"]].
Proof.
  split; [reflexivity |]. split; [reflexivity |].
  destruct (displayPredictions_stops_at_first_failure
              [[("class", JStr "cat"); ("probability", JNum 90)]] JNull
              [JObj [("class", JStr "dog"); ("probability", JNum 10)]] busy
              eq_refl eq_refl) as [rows [H1 [_ [H2 _]]]].
  exists rows. split; [exact H1 | exact H2].
Defined.

(** ** Whole classifications *)

Lemma nth_error_last {A : Type} (l : list A) x :
  nth_error (l ++ [x]) (List.length l) = Some x.
Proof. rewrite nth_error_app2, Nat.sub_diag; [reflexivity | lia]. Qed.

Lemma remove_nth_last {A : Type} (x : A) : forall l,
  remove_nth (List.length l) (l ++ [x]) = l.
Proof.
  induction l as [| a l IH]; simpl; [reflexivity | rewrite IH; reflexivity].
Qed.

(** X10: a whole classification on a new page.  An accepted file is
    dropped, classify is clicked, the endpoint answers 2xx with a truthy
    success, an array of prediction objects whose [class] and
    [probability] can be converted to text and a processing time that can
    be, and the preview is read: one request carrying the file was sent,
    nothing is pending, the markup of the rows holds the texts of the
    predictions in order, the processing time is the text of the one
    received, the preview is the staged file, the panel is visible, the
    indicator is hidden and no toast was added. *)
Theorem classification_succeeds d f response props objs time :
  validate f = Accepted ->
  ok response = true ->
  body response = Some (JObj props) ->
  truthy (lookup "success" props) = true ->
  lookup "predictions" props = JArr (map JObj objs) ->
  forallb printable objs = true ->
  textContent (lookup "processing_time" props) = Some time ->
  let s' := run [Drop [f]; ClickClassify; FetchResolved 0 response; JsonSettled 0;
                 ReaderLoaded 0] (constructor d) in
  currentFile s' = Some f /\
  requests s' = [classify_request f] /\
  pending s' = [] /\
  map label_text (predictions_list (page s')) =
    map (fun props => text_of (lookup "class" props)) objs /\
  map confidence_text (predictions_list (page s')) =
    map (fun props => text_of (lookup "probability" props)) objs /\
  processing_time_text (page s') = time /\
  preview_image_src (page s') = Some f /\
  results_section_hidden (page s') = false /\
  results_display_hidden (page s') = false /\
  processing_hidden (page s') = true /\
  toasts (page s') = toasts d.
Proof.
  intros Hv Hok Hb Hs Hps Hpr Htime s'. subst s'.
  change [Drop [f]; ClickClassify; FetchResolved 0 response; JsonSettled 0; ReaderLoaded 0]
    with ([Drop [f]; ClickClassify] ++ [FetchResolved 0 response; JsonSettled 0]
          ++ [ReaderLoaded 0])%list.
  rewrite !run_app.
  assert (H0 : run [Drop [f]; ClickClassify] (constructor d) =
               fetch (classify_request f) (showProcessing (stage f (constructor d)))).
  { change (run [Drop [f]; ClickClassify] (constructor d))
      with (classifyImage (handleFileSelect (Some f) (constructor d))).
    rewrite handleFileSelect_validate, Hv. reflexivity. }
  rewrite H0.
  rewrite (run_fetch_json 0 response (JObj props)
             (fetch (classify_request f) (showProcessing (stage f (constructor d))))
             eq_refl Hok Hb).
  unfold on_result. cbn [prop]. rewrite Hs.
  unfold displayResults, displayImagePreview. cbn [prop obind]. rewrite Hps, Htime.
  replace (currentFile (on_page _ (settled 0 _))) with (Some f) by reflexivity.
  cbn [bind].
  destruct (displayPredictions_objects objs Hpr) as [rows [Hrun [Hl [Hc _]]]].
  rewrite Hrun. cbn [bind]. simpl. repeat split; assumption.
Qed.

Lemma classification_succeeds_witness :
  validate photo = Accepted /\
  map label_text
    (predictions_list
       (page (run [Drop [photo]; ClickClassify; FetchResolved 0 retriever;
                   JsonSettled 0; ReaderLoaded 0] (constructor blank)))) =
    [[Chars "golden retriever"]].
Proof.
  split; [reflexivity |].
  apply (classification_succeeds blank photo retriever
           [("success", JBool true);
            ("predictions",
             JArr [JObj [("class", JStr "golden retriever");
                         ("probability", JNum 95)]]);
            ("processing_time", JNum (15 # 100))]
           [[("class", JStr "golden retriever"); ("probability", JNum 95)]]
           [Digits (15 # 100)]);
    reflexivity.
Defined.

(** X11: a successful answer that arrives when no file is staged (the
    user cleared in the meantime) is not rendered: the panel is made
    visible with the list, the processing time and the preview it had, the
    generic error toast is shown, and no reader is started. *)
Theorem success_without_file_not_rendered i response result success s :
  currentFile s = None ->
  nth_error (pending s) i = Some (AwaitJson response) ->
  body response = Some result ->
  prop result "success" = Some success -> truthy success = true ->
  exists s',
    step (JsonSettled i) s = Some s' /\
    s' = hideProcessing (notified (text_of generic_error) (show_results (settled i s))) /\
    toasts (page s') = (toasts (page s) ++ [toast_of (text_of generic_error)])%list /\
    message_text (toast_of (text_of generic_error)) =
      [Chars "An error occurred during classification. Please try again."] /\
    predictions_list (page s') = predictions_list (page s) /\
    processing_time_text (page s') = processing_time_text (page s) /\
    results_section_hidden (page s') = false /\
    results_display_hidden (page s') = false /\
    pending s' = remove_nth i (pending s).
Proof.
  intros Hf Hp Hb Hs Ht. eexists. split.
  - simpl. rewrite Hp. unfold json_settled. rewrite Hb. unfold on_result.
    rewrite Hs, Ht. unfold displayResults, displayImagePreview. simpl.
    rewrite Hf. simpl. reflexivity.
  - repeat split.
Qed.

Lemma success_without_file_not_rendered_witness :
  currentFile (clearFile (answered retriever)) = None /\
  exists s',
    step (JsonSettled 0) (clearFile (answered retriever)) = Some s' /\
    s' = hideProcessing (notified (text_of generic_error)
           (show_results (settled 0 (clearFile (answered retriever))))) /\
    toasts (page s') =
      (toasts (page (clearFile (answered retriever))) ++
       [toast_of (text_of generic_error)])%list /\
    message_text (toast_of (text_of generic_error)) =
      [Chars "An error occurred during classification. Please try again."] /\
    predictions_list (page s') = predictions_list (page (clearFile (answered retriever))) /\
    processing_time_text (page s') =
      processing_time_text (page (clearFile (answered retriever))) /\
    results_section_hidden (page s') = false /\
    results_display_hidden (page s') = false /\
    pending s' = remove_nth 0 (pending (clearFile (answered retriever))).
Proof.
  split; [reflexivity |].
  eapply (success_without_file_not_rendered 0 retriever); reflexivity.
Defined.

(** X12: a successful answer whose [predictions] is not an array (the key
    is missing, say), a file being staged: the panel is made visible with
    an emptied list, the preview reader is started, the processing time is
    left as it was and the generic error toast is shown. *)
Theorem success_without_predictions i response props f s :
  currentFile s = Some f ->
  nth_error (pending s) i = Some (AwaitJson response) ->
  body response = Some (JObj props) ->
  truthy (lookup "success" props) = true ->
  (forall items, lookup "predictions" props <> JArr items) ->
  exists s',
    step (JsonSettled i) s = Some s' /\
    s' = hideProcessing (notified (text_of generic_error)
           (on_page (set_predictions_list [])
              (spawn (ReaderLoading f) (show_results (settled i s))))) /\
    predictions_list (page s') = [] /\
    processing_time_text (page s') = processing_time_text (page s) /\
    toasts (page s') = (toasts (page s) ++ [toast_of (text_of generic_error)])%list /\
    pending s' = (remove_nth i (pending s) ++ [ReaderLoading f])%list.
Proof.
  intros Hf Hp Hb Ht Hna. eexists. split.
  - simpl. rewrite Hp. unfold json_settled. rewrite Hb. unfold on_result.
    cbn [prop]. rewrite Ht. unfold displayResults, displayImagePreview. simpl.
    rewrite Hf. simpl. unfold displayPredictions.
    destruct (lookup "predictions" props) as [| | | | | items |] eqn:E;
      try reflexivity.
    exfalso. exact (Hna items eq_refl).
  - repeat split.
Qed.

Lemma success_without_predictions_witness :
  currentFile (answered no_predictions) = Some photo /\
  exists s',
    step (JsonSettled 0) (answered no_predictions) = Some s' /\
    s' = hideProcessing (notified (text_of generic_error)
           (on_page (set_predictions_list [])
              (spawn (ReaderLoading photo)
                 (show_results (settled 0 (answered no_predictions)))))) /\
    predictions_list (page s') = [] /\
    processing_time_text (page s') = processing_time_text (page (answered no_predictions)) /\
    toasts (page s') =
      (toasts (page (answered no_predictions)) ++ [toast_of (text_of generic_error)])%list /\
    pending s' = (remove_nth 0 (pending (answered no_predictions)) ++ [ReaderLoading photo])%list.
Proof.
  split; [reflexivity |].
  apply (success_without_predictions 0 no_predictions [("success", JBool true)]);
    try reflexivity.
  intros items H. discriminate H.
Defined.

(** X13: a submission that meets a network error undoes itself but for
    the traces: the pending operations and the staged file are as before,
    the request stays sent, the generic toast is added, and the results
    section is left visible with neither the indicator nor the results in
    it. *)
Theorem classifyImage_then_network_error f s :
  currentFile s = Some f ->
  let s' := run [ClickClassify; FetchRejected (List.length (pending s))] s in
  s' = hideProcessing (notified (text_of generic_error)
         (mkState (currentFile s) (page (showProcessing s))
                  (requests s ++ [classify_request f]) (pending s))) /\
  pending s' = pending s /\
  currentFile s' = Some f /\
  requests s' = (requests s ++ [classify_request f])%list /\
  results_section_hidden (page s') = false /\
  results_display_hidden (page s') = true /\
  processing_hidden (page s') = true.
Proof.
  intros Hf s'. subst s'.
  assert (H : run [ClickClassify; FetchRejected (List.length (pending s))] s =
              hideProcessing (notified (text_of generic_error)
                (mkState (currentFile s) (page (showProcessing s))
                   (requests s ++ [classify_request f]) (pending s)))).
  { cbn [run]. cbn [step]. rewrite (classifyImage_file s f Hf).
    cbn [step]. unfold fetch at 1. cbn [pending showProcessing on_page].
    rewrite nth_error_last. unfold fetch_rejected, settled, fetch. cbn [pending].
    cbn [showProcessing on_page pending]. rewrite remove_nth_last. reflexivity. }
  rewrite H. repeat split. simpl. exact Hf.
Qed.

Lemma classifyImage_then_network_error_witness :
  currentFile busy = Some photo /\
  pending (run [ClickClassify; FetchRejected (List.length (pending busy))] busy) =
    pending busy.
Proof.
  split; [reflexivity |].
  apply (classifyImage_then_network_error photo busy). reflexivity.
Defined.

(** X14: an answer with a 2xx status whose body is JSON but not an
    object.  [null] makes the invocation throw, so the generic error is
    shown; a boolean, a number, a text or an array has no [success], so it
    counts as a failure without message and the fallback is shown.  In
    neither case is anything rendered. *)
Theorem non_object_body i response result s :
  nth_error (pending s) i = Some (AwaitJson response) ->
  body response = Some result ->
  (forall props, result <> JObj props) ->
  exists message,
    step (JsonSettled i) s = Some (hideProcessing (notified (text_of message) (settled i s))) /\
    (result = JNull \/ result = JUndefined -> message = generic_error) /\
    (result <> JNull -> result <> JUndefined -> message = fallback_error).
Proof.
  intros Hp Hb Hno.
  assert (Hstep : step (JsonSettled i) s = Some (leave (on_result result (settled i s)))).
  { simpl. rewrite Hp. unfold json_settled. rewrite Hb. reflexivity. }
  rewrite Hstep.
  destruct result as [| | b | q | t | items | props];
    try (exists generic_error; split; [reflexivity |];
         split; [reflexivity | intros H1 H2; congruence]);
    try (exists fallback_error; split; [reflexivity |];
         split; [intros [H | H]; discriminate H | reflexivity]).
  exfalso. exact (Hno props eq_refl).
Qed.

Lemma non_object_body_witness :
  nth_error (pending (answered {| status := 200; body := Some (JArr []) |})) 0 =
    Some (AwaitJson {| status := 200; body := Some (JArr []) |}) /\
  exists message,
    step (JsonSettled 0) (answered {| status := 200; body := Some (JArr []) |}) =
      Some (hideProcessing (notified (text_of message)
              (settled 0 (answered {| status := 200; body := Some (JArr []) |})))) /\
    (JArr [] = JNull \/ JArr [] = JUndefined -> message = generic_error) /\
    (JArr [] <> JNull -> JArr [] <> JUndefined -> message = fallback_error).
Proof.
  split; [reflexivity |].
  apply (non_object_body 0 {| status := 200; body := Some (JArr []) |} (JArr []));
    try reflexivity.
  intros props H. discriminate H.
Defined.

(** ** Shortcuts *)

(** X15: the keyboard shortcuts.  Escape clears whatever the modifiers;
    Enter with Ctrl or Cmd does exactly what a click on classify does (the
    test of the staged file in the listener changes nothing); any other key
    leaves the controller as it is. *)
Theorem keydown_shortcuts e s :
  (key e = "Escape" ->
     keydown e s = clearFile s /\ step KeyEscape s = Some (keydown e s)) /\
  (key e = "Enter" -> ctrlKey e || metaKey e = true ->
     keydown e s = classifyImage s /\
     step KeyCtrlEnter s = Some (keydown e s) /\
     step ClickClassify s = Some (keydown e s)) /\
  (key e = "Enter" -> ctrlKey e || metaKey e = false -> keydown e s = s) /\
  (key e <> "Enter" -> key e <> "Escape" -> keydown e s = s).
Proof.
  unfold keydown. split; [| split; [| split]].
  - intros H. rewrite H. simpl. rewrite andb_false_r. split; reflexivity.
  - intros H Hm. rewrite H, Hm. simpl.
    assert (Hc : match currentFile s with Some _ => classifyImage s | None => s end =
                 classifyImage s).
    { destruct (currentFile s) eqn:E; [reflexivity |].
      symmetry. apply classifyImage_no_file, E. }
    rewrite Hc. repeat split.
  - intros H Hm. rewrite H, Hm. reflexivity.
  - intros H1 H2.
    apply String.eqb_neq in H1. apply String.eqb_neq in H2.
    rewrite H1, H2, andb_false_r. reflexivity.
Qed.

Lemma keydown_shortcuts_witness :
  keydown {| ctrlKey := false; metaKey := true; key := "Enter" |} busy =
    classifyImage busy /\
  keydown {| ctrlKey := true; metaKey := false; key := "a" |} busy = busy.
Proof.
  split.
  - apply (keydown_shortcuts {| ctrlKey := false; metaKey := true; key := "Enter" |} busy);
      reflexivity.
  - apply (keydown_shortcuts {| ctrlKey := true; metaKey := false; key := "a" |} busy);
      discriminate.
Defined.

(** ** The viewport test *)




(** ** The file card *)

Lemma card_matches_card s s' : card s' = card s -> card_matches s -> card_matches s'.
Proof.
  unfold card, card_matches. intros H. inversion H as [[H1 H2 H3 H4 H5]].
  rewrite H1, H2, H3, H4, H5. exact (fun x => x).
Qed.

Lemma card_leave_on_result result s : card (leave (on_result result s)) = card s.
Proof.
  unfold on_result. destruct (prop result "success") as [success |]; [| reflexivity].
  destruct (truthy success).
  - destruct (displayResults_shape result s) as [rows [t [l [H _]]]].
    destruct (displayResults result s) as [s2 | s2]; simpl in H; subst s2; reflexivity.
  - destruct (prop result "error") as [e |]; [| reflexivity].
    unfold showError. destruct (ToString (or_else e (JStr "Classification failed")));
      reflexivity.
Qed.

Lemma card_handleFileSelect file s :
  card_matches s -> card_matches (handleFileSelect file s).
Proof.
  intros H. destruct file as [f |]; [| exact H].
  rewrite handleFileSelect_validate. destruct (validate f).
  - unfold card_matches. simpl. repeat split.
  - exact H.
Qed.

Lemma card_step e s s' : card_matches s -> step e s = Some s' -> card_matches s'.
Proof.
  intros H Hstep. destruct e; simpl in Hstep.
  - inversion Hstep; subst; clear Hstep. apply card_handleFileSelect. exact H.
  - inversion Hstep; subst; clear Hstep.
    destruct (0 <? List.length files)%nat; [apply card_handleFileSelect |]; exact H.
  - inversion Hstep; subst; clear Hstep. apply (card_matches_card s); [| exact H].
    unfold classifyImage. destruct (currentFile s) eqn:E; [| reflexivity].
    unfold card. simpl. rewrite E. reflexivity.
  - inversion Hstep; subst; clear Hstep. unfold card_matches. simpl. split; reflexivity.
  - inversion Hstep; subst; clear Hstep.
    destruct (currentFile s) eqn:E; [| exact H].
    apply (card_matches_card s); [| exact H].
    unfold classifyImage. rewrite E. unfold card. simpl. rewrite E. reflexivity.
  - inversion Hstep; subst; clear Hstep. unfold card_matches. simpl. split; reflexivity.
  - destruct (nth_error (pending s) i) as [[| |] |]; inversion Hstep; subst; clear Hstep.
    apply (card_matches_card s); [| exact H].
    unfold fetch_resolved. destruct (negb (ok response)); reflexivity.
  - destruct (nth_error (pending s) i) as [[| |] |]; inversion Hstep; subst; clear Hstep.
    apply (card_matches_card s); [reflexivity | exact H].
  - destruct (nth_error (pending s) i) as [[| r |] |]; inversion Hstep; subst; clear Hstep.
    apply (card_matches_card s); [| exact H].
    unfold json_settled. destruct (body r) as [result |]; [| reflexivity].
    rewrite card_leave_on_result. reflexivity.
  - destruct (nth_error (pending s) i) as [[| | f] |]; inversion Hstep; subst; clear Hstep.
    apply (card_matches_card s); [reflexivity | exact H].
  - destruct (nth_error (pending s) i) as [[| | f] |]; inversion Hstep; subst; clear Hstep.
    apply (card_matches_card s); [reflexivity | exact H].
Qed.

(** X17: on a page whose file card and classify button start hidden, the
    classify button and the file card are visible exactly when a file is
    staged, and the card then shows the name and the size of the staged
    file, whatever selections, clicks and answers came before. *)
Theorem card_follows_staged_file d es :
  file_info_hidden d = true -> classify_btn_hidden d = true ->
  let s := run es (constructor d) in
  card_matches s /\
  (classify_btn_hidden (page s) = false <-> currentFile s <> None) /\
  (file_info_hidden (page s) = false <-> currentFile s <> None) /\
  (forall f, currentFile s = Some f ->
     file_name_text (page s) = name f /\ file_size_bytes (page s) = size f).
Proof.
  intros H1 H2 s.
  assert (H : card_matches s).
  { subst s. assert (G : forall es s0, card_matches s0 -> card_matches (run es s0)).
    { clear. induction es as [| e rest IH]; intros s0 H0; simpl; [exact H0 |].
      destruct (step e s0) as [s' |] eqn:E; [| apply IH, H0].
      apply IH. exact (card_step e s0 s' H0 E). }
    apply G. unfold card_matches. simpl. split; assumption. }
  split; [exact H |]. unfold card_matches in H.
  destruct (currentFile s) as [f |].
  - destruct H as [Ha [Hb [Hc Hd]]]. repeat split; congruence.
  - destruct H as [Ha Hb]. repeat split; congruence.
Qed.

Lemma card_follows_staged_file_witness :
  file_info_hidden blank = true /\ classify_btn_hidden blank = true /\
  card_matches (run [Drop [photo]; ClickClassify; Drop [exact]; FetchRejected 0]
                  (constructor blank)).
Proof.
  split; [reflexivity |]. split; [reflexivity |].
  apply (card_follows_staged_file blank
           [Drop [photo]; ClickClassify; Drop [exact]; FetchRejected 0]);
    reflexivity.
Defined.
